(** * aws-ai-devbox-mac: the inference server and the training script

    A shallow embedding of [ai/src/inference/app.py] (the FastAPI prediction
    service) and of [ai/src/sagemaker/train_script.py] (the scikit-learn
    training job), with the properties stated about them.

    Python's effects are written out: a handler is a function from the
    process state to an outcome and a new process state; an exception is an
    outcome; the calls that leave the program (joblib, the model's methods,
    print) are recorded in a trace. *)

From Stdlib Require Import ZArith Floats Ascii String.
From stdpp Require Import base option list strings gmap pretty.

Open Scope Z_scope.
Open Scope string_scope.

(** ** Python: exceptions *)

Module python.

(** The exceptions the program can observe. [HTTPException] is FastAPI's;
    every other subclass of [Exception] is kept by its [str(e)]. Both are
    subclasses of [Exception], so [except Exception] catches both. What is
    not an [Exception] ([KeyboardInterrupt], [SystemExit]) is not modelled. *)
Inductive exn : Type :=
| HTTPException (status_code : Z) (detail : string)
| Exception (msg : string).

(** [str(e)]; starlette's [HTTPException.__str__] is
    [f"{self.status_code}: {self.detail}"]. *)
Definition str (e : exn) : string :=
  match e with
  | HTTPException status_code detail => pretty status_code ++ ": " ++ detail
  | Exception msg => msg
  end.

(** The result of a call into library code: it raises or it returns. *)
Definition result (A : Type) : Type := exn + A.

(** [int(x)] on the values of a type: [__int__] or the parsing of a string,
    which can raise. *)
Class Int (L : Type) := int : L -> result Z.

#[export] Instance Int_Z : Int Z := fun z => inr z.

(** [int(x)] on a binary64 float truncates towards zero and raises on NaN
    and on the infinities. *)
#[export] Instance Int_float : Int float := fun f =>
  match Prim2SF f with
  | S754_zero _ => inr 0
  | S754_infinity _ => inl (Exception "cannot convert float infinity to integer")
  | S754_nan => inl (Exception "cannot convert float NaN to integer")
  | S754_finite s m e =>
      let a := if (0 <=? e)%Z then Z.shiftl (Z.pos m) e else Z.shiftr (Z.pos m) (- e) in
      inr (if s then - a else a)
  end.

(** [xs[0]] on a sequence (a list or the first axis of an array). *)
Definition getitem0 {A : Type} (xs : list A) : result A :=
  match xs !! 0%nat with
  | Some x => inr x
  | None => inl (Exception "index 0 is out of bounds for axis 0 with size 0")
  end.

(** How a body of Python code ends. *)
Inductive outcome (A : Type) : Type :=
| Return (a : A)
| Raise (e : exn).
Arguments Return {A} _.
Arguments Raise {A} _.

(** Code that reads and writes a state of type [S] and returns or raises. *)
Definition M (S A : Type) : Type := S -> outcome A * S.

#[export] Instance M_ret {S : Type} : MRet (M S) := fun A a s => (Return a, s).

#[export] Instance M_bind {S : Type} : MBind (M S) := fun A B f c s =>
  match c s with
  | (Return a, s') => f a s'
  | (Raise e, s') => (Raise e, s')
  end.

Definition raise {S A : Type} (e : exn) : M S A := fun s => (Raise e, s).

(** [try: body except Exception as e: handler(e)]: what the body did before
    it raised stays done. *)
Definition try_except {S A : Type} (body : M S A) (handler : exn -> M S A) : M S A := fun s =>
  match body s with
  | (Return a, s') => (Return a, s')
  | (Raise e, s') => handler e s'
  end.

(** A call into library code: raise what it raised, return what it
    returned. *)
Definition call {S A : Type} (r : result A) : M S A :=
  match r with
  | inl e => raise e
  | inr a => mret a
  end.

End python.

(** ** numpy: arrays of float64 and reshape *)

Module np.
Import python.

(** An array is its shape and its elements in row-major order. *)
Record ndarray : Type := { shape : list nat; data : list float }.

(** [np.array(l)] on a list of floats: one axis, of the list's length. *)
Definition array (l : list float) : ndarray :=
  {| shape := [length l]; data := l |}.

Definition size (a : ndarray) : nat := length (data a).

Definition reshape_error : exn := Exception "cannot reshape array into the requested shape".

(** The product of the given dimensions and the number of unknown (negative)
    ones among them. *)
Fixpoint known_dims (newshape : list Z) : nat * nat :=
  match newshape with
  | [] => (1%nat, 0%nat)
  | d :: ds =>
      let '(s_known, unknowns) := known_dims ds in
      if (d <? 0)%Z then (s_known, S unknowns) else ((Z.to_nat d * s_known)%nat, unknowns)
  end.

(** [a.reshape(newshape)]: the elements are kept in order; at most one
    dimension is unknown and is inferred from the size, which the known
    dimensions must divide; without an unknown the sizes must agree. *)
Definition reshape (a : ndarray) (newshape : list Z) : result ndarray :=
  let '(s_known, unknowns) := known_dims newshape in
  match unknowns with
  | O =>
      if (size a =? s_known)%nat
      then inr {| shape := Z.to_nat <$> newshape; data := data a |}
      else inl reshape_error
  | S O =>
      if (s_known =? 0)%nat || negb (size a mod s_known =? 0)%nat
      then inl reshape_error
      else inr {| shape := (fun d => if (d <? 0)%Z then (size a / s_known)%nat else Z.to_nat d) <$> newshape;
                  data := data a |}
  | _ => inl (Exception "can only specify one unknown dimension")
  end.

(** [row.tolist()] on a one-axis array of floats. *)
Definition tolist (row : list float) : list float := row.

End np.

(** ** scikit-learn: what the server uses of a classifier *)

Module sklearn.
Import python.

(** A fitted classifier with labels of type [L], as [joblib.load] returns
    it. The server calls [predict] and [predict_proba]; each raises or
    returns an array: of labels, and of rows of probabilities. Nothing is
    assumed of what they return. *)
Record Classifier (L : Type) : Type := {
  n_features_in_ : nat;
  classes_ : list L;
  predict : np.ndarray -> result (list L);
  predict_proba : np.ndarray -> result (list (list float))
}.
Arguments n_features_in_ {L} _.
Arguments classes_ {L} _.
Arguments predict {L} _ _.
Arguments predict_proba {L} _ _.

Definition n_classes {L : Type} (m : Classifier L) : nat := length (classes_ m).

End sklearn.

(** ** ai/src/inference/app.py *)

Module app.
Import python sklearn.

(** What the process does outside itself, in the order it does it. *)
Inductive event : Type :=
| joblib_load (path : string)
| model_predict (X : np.ndarray)
| model_predict_proba (X : np.ndarray)
| print (line : string).

Record PredictionRequest : Type := { features : list float }.

Record PredictionResponse : Type := { prediction : Z; probability : list float }.

(** The module's state: the global [model] ([None] until the load
    succeeds), and the trace of the events so far, oldest first. [L] is the
    type of the classifier's labels. *)
Record process (L : Type) : Type := { model : option (Classifier L); trace : list event }.
Arguments model {L} _.
Arguments trace {L} _.

(** [model = None] at import. *)
Definition initial {L : Type} : process L := {| model := None; trace := [] |}.

(** Reading and assigning the global. *)
Definition get_model {L : Type} : M (process L) (option (Classifier L)) := fun s => (Return (model s), s).

Definition set_model {L : Type} (m : Classifier L) : M (process L) unit := fun s =>
  (Return (), {| model := Some m; trace := trace s |}).

Definition emit {L : Type} (ev : event) : M (process L) unit := fun s =>
  (Return (), {| model := model s; trace := trace s ++ [ev] |}).

(** [load_model], run by FastAPI on the startup event. [load] is what
    [joblib.load] does with a path in the environment of the process. *)
Definition load_model {L : Type} (load : string -> result (Classifier L)) : M (process L) unit :=
  try_except
    (emit (joblib_load "/opt/ml/model/model.joblib");;
     m ← call (load "/opt/ml/model/model.joblib");
     set_model m;;
     emit (print "Model loaded successfully"))
    (fun e =>
     emit (print ("Warning: Could not load model: " ++ str e));;
     emit (print "Using dummy model for testing")).

(** [GET /ping] *)
Definition health_check {L : Type} : M (process L) (gmap string string) :=
  m ← get_model;
  match m with
  | None => raise (HTTPException 503 "Model not loaded")
  | Some _ => mret {[ "status" := "healthy" ]}
  end.

(** [POST /invocations] *)
Definition predict {L : Type} `{Int L} (request : PredictionRequest) : M (process L) PredictionResponse :=
  m ← get_model;
  match m with
  | None => raise (HTTPException 503 "Model not loaded")
  | Some model =>
      try_except
        (features ← call (np.reshape (np.array (features request)) [1; -1]);
         emit (model_predict features);;
         ys ← call (sklearn.predict model features);
         y ← call (getitem0 ys);
         prediction ← call (int y);
         emit (model_predict_proba features);;
         P ← call (sklearn.predict_proba model features);
         row ← call (getitem0 P);
         let probabilities := np.tolist row in
         mret {| prediction := prediction; probability := probabilities |})
        (fun e => raise (HTTPException 400 ("Prediction error: " ++ str e)))
  end.

(** [GET /] *)
Definition root {L : Type} : M (process L) (gmap string string) :=
  mret {[ "message" := "SageMaker Inference API"; "docs" := "/docs" ]}.

(** *** The server around the handlers *)

(** A request that reaches one of the three handlers. What FastAPI
    answers without running a handler (422 for a body that is not a
    [PredictionRequest], its own documentation routes, 404) is not
    modelled. *)
Inductive request : Type :=
| GET_ping
| POST_invocations (body : PredictionRequest)
| GET_root.

Inductive content : Type :=
| json_dict (d : gmap string string)
| json_prediction (r : PredictionResponse)
| json_detail (detail : string)
| internal_server_error.

Record response : Type := { status : Z; body : content }.

(** The routes declared by [@app.get] and [@app.post]. *)
Definition route {L : Type} `{Int L} (r : request) : M (process L) content :=
  match r with
  | GET_ping => d ← health_check; mret (json_dict d)
  | POST_invocations body => p ← predict body; mret (json_prediction p)
  | GET_root => d ← root; mret (json_dict d)
  end.

(** What FastAPI sends for the way a handler ended: 200 with what it
    returned, the status and detail of an [HTTPException], 500 for any
    other exception. In each case the process goes on. (Writing the content
    as JSON text is not modelled.) *)
Definition respond (o : outcome content) : response :=
  match o with
  | Return c => {| status := 200; body := c |}
  | Raise (HTTPException status_code detail) => {| status := status_code; body := json_detail detail |}
  | Raise (Exception _) => {| status := 500; body := internal_server_error |}
  end.

Fixpoint serve {L : Type} `{Int L} (reqs : list request) (s : process L) : list response * process L :=
  match reqs with
  | [] => ([], s)
  | r :: reqs' =>
      let '(o, s') := route r s in
      let '(resps, s'') := serve reqs' s' in
      (respond o :: resps, s'')
  end.

(** The life of the process under [uvicorn.run(app, ...)]: the startup
    handler runs once on the initial state; if it raises, startup fails and
    the process ends ([None]); otherwise the requests are served in turn. *)
Definition uvicorn_run {L : Type} `{Int L} (load : string -> result (Classifier L)) (reqs : list request)
  : option (list response * process L) :=
  match load_model load initial with
  | (Return _, s) => Some (serve reqs s)
  | (Raise _, _) => None
  end.

End app.

(** ** ai/src/sagemaker/train_script.py *)

Module train_script.
Import python.

(** [os.path.join(a, b)] of posixpath. *)
Fixpoint endswith_sep (s : string) : bool :=
  match s with
  | EmptyString => false
  | String c EmptyString => bool_decide (c = "/"%char)
  | String _ s' => endswith_sep s'
  end.

Definition os_path_join (a b : string) : string :=
  if String.prefix "/" b then b
  else if bool_decide (a = "") || endswith_sep a then a ++ b
  else a ++ "/" ++ b.

(** [s * n] on a string. *)
Fixpoint str_mul (s : string) (n : nat) : string :=
  match n with
  | O => ""
  | S n' => s ++ str_mul s n'
  end.

Definition newline : string := String "010"%char EmptyString.
Definition dquote : string := String "034"%char EmptyString.

(** pandas, scikit-learn, joblib and the float formatting of Python, as far
    as the script calls them. *)
Class Libraries : Type := {
  DataFrame : Type;
  Matrix : Type;
  Vector : Type;
  RandomForestClassifier : Type;
  (** [pd.read_csv] on the text of a file *)
  read_csv : string -> result DataFrame;
  (** [f"{df.shape}"] *)
  shape_str : DataFrame -> string;
  (** [df.iloc[:, :-1].values] and [df.iloc[:, -1].values] *)
  iloc_features : DataFrame -> result Matrix;
  iloc_target : DataFrame -> result Vector;
  (** [RandomForestClassifier(n_estimators, max_depth, random_state, n_jobs).fit(X, y)] *)
  fit : Z -> Z -> Z -> Z -> Matrix -> Vector -> result RandomForestClassifier;
  rf_predict : RandomForestClassifier -> Matrix -> result Vector;
  accuracy_score : Vector -> Vector -> result float;
  classification_report : Vector -> Vector -> result string;
  (** [f"{x:.4f}"] and [float.__repr__], which [json] writes *)
  format_4f : float -> string;
  float_repr : float -> string;
  (** the bytes [joblib.dump] writes for a model *)
  joblib_dumps : RandomForestClassifier -> string
}.

(** The result of [parse_args]. *)
Record Namespace : Type := {
  n_estimators : Z;
  max_depth : Z;
  random_state : Z;
  model_dir : string;
  train : string;
  test : string;
  output_data_dir : string
}.

(** [parse_args] on a command line without options: the defaults, the
    directories taken from the environment when it has them. *)
Definition parse_args (environ : gmap string string) : Namespace :=
  {| n_estimators := 100;
     max_depth := 10;
     random_state := 42;
     model_dir := default "/opt/ml/model" (environ !! "SM_MODEL_DIR");
     train := default "/opt/ml/input/data/train" (environ !! "SM_CHANNEL_TRAIN");
     test := default "/opt/ml/input/data/test" (environ !! "SM_CHANNEL_TEST");
     output_data_dir := default "/opt/ml/output" (environ !! "SM_OUTPUT_DATA_DIR") |}.

(** The world of the script: the text of each file, which paths the system
    lets it open for writing, and what it has printed, oldest first. *)
Record world : Type := {
  files : gmap string string;
  writable : string -> bool;
  stdout : list string
}.

Definition print (line : string) : M world unit := fun w =>
  (Return (), {| files := files w; writable := writable w; stdout := stdout w ++ [line] |}).

(** Reading the text of a file, for [pd.read_csv(path)]. *)
Definition read_file (path : string) : M world string := fun w =>
  match files w !! path with
  | Some text => (Return text, w)
  | None => (Raise (Exception ("[Errno 2] No such file or directory: '" ++ path ++ "'")), w)
  end.

(** [open(path, "w")] followed by writing [text], as [json.dump] to the
    opened file and [joblib.dump] do: the file holds [text] afterwards, or
    the open raises and nothing is written. *)
Definition write_file (path text : string) : M world unit := fun w =>
  if writable w path
  then (Return (), {| files := <[path := text]> (files w); writable := writable w; stdout := stdout w |})
  else (Raise (Exception ("[Errno 13] Permission denied: '" ++ path ++ "'")), w).

(** [json.dumps] on a dict from strings (without characters to escape) to
    floats. *)
Fixpoint json_members `{Libraries} (d : list (string * float)) : string :=
  match d with
  | [] => ""
  | [(k, v)] => dquote ++ k ++ dquote ++ ": " ++ float_repr v
  | (k, v) :: d' => dquote ++ k ++ dquote ++ ": " ++ float_repr v ++ ", " ++ json_members d'
  end.

Definition json_dumps `{Libraries} (d : list (string * float)) : string :=
  "{" ++ json_members d ++ "}".

Definition load_data `{Libraries} (train_dir test_dir : string) : M world (DataFrame * DataFrame) :=
  let train_file := os_path_join train_dir "train.csv" in
  let test_file := os_path_join test_dir "test.csv" in
  train_text ← read_file train_file;
  train_df ← call (read_csv train_text);
  test_text ← read_file test_file;
  test_df ← call (read_csv test_text);
  print ("Train data shape: " ++ shape_str train_df);;
  print ("Test data shape: " ++ shape_str test_df);;
  mret (train_df, test_df).

Definition train_model `{Libraries} (args : Namespace) : M world RandomForestClassifier :=
  print "Loading data...";;
  dfs ← load_data (train args) (test args);
  let '(train_df, test_df) := dfs in
  X_train ← call (iloc_features train_df);
  y_train ← call (iloc_target train_df);
  X_test ← call (iloc_features test_df);
  y_test ← call (iloc_target test_df);
  print "Training model...";;
  model ← call (fit (n_estimators args) (max_depth args) (random_state args) (-1) X_train y_train);
  train_preds ← call (rf_predict model X_train);
  test_preds ← call (rf_predict model X_test);
  train_acc ← call (accuracy_score y_train train_preds);
  test_acc ← call (accuracy_score y_test test_preds);
  print (newline ++ "Training Accuracy: " ++ format_4f train_acc);;
  print ("Test Accuracy: " ++ format_4f test_acc);;
  print (newline ++ "Classification Report:");;
  report ← call (classification_report y_test test_preds);
  print report;;
  let metrics := [("train_accuracy", train_acc); ("test_accuracy", test_acc)] in
  let metrics_path := os_path_join (output_data_dir args) "metrics.json" in
  write_file metrics_path (json_dumps metrics);;
  mret model.

Definition save_model `{Libraries} (model : RandomForestClassifier) (model_dir : string) : M world unit :=
  let model_path := os_path_join model_dir "model.joblib" in
  write_file model_path (joblib_dumps model);;
  print ("Model saved to " ++ model_path).

(** The body of [if __name__ == "__main__"], after [args = parse_args()]. *)
Definition main `{Libraries} (args : Namespace) : M world unit :=
  print (str_mul "=" 80);;
  print "SageMaker Training Job";;
  print (str_mul "=" 80);;
  print ("Hyperparameters: n_estimators=" ++ pretty (n_estimators args)
         ++ ", max_depth=" ++ pretty (max_depth args));;
  print "";;
  model ← train_model args;
  save_model model (model_dir args);;
  print (newline ++ str_mul "=" 80);;
  print "Training complete!";;
  print (str_mul "=" 80).

End train_script.

(** ** The vocabulary of the properties *)

Module spec.
Import python sklearn app.

(** The single-row input the handler builds from a feature list. *)
Definition row (x : list float) : np.ndarray :=
  {| np.shape := [1%nat; length x]; np.data := x |}.

(** The sum of a probability sequence, added left to right in binary64, and
    the test that it is 1.0 within 1e-6. *)
Definition fsum (p : list float) : float := fold_left PrimFloat.add p 0%float.

Definition sums_to_one (p : list float) : bool :=
  (PrimFloat.abs (fsum p - 1) <=? 0x1.0c6f7a0b5ed8dp-20)%float.

(** The model accepts the input [X]: both of its methods return, with a
    first entry, and the label converts to an integer. *)
Definition accepts {L : Type} `{Int L} (m : Classifier L) (X : np.ndarray)
    (z : Z) (p : list float) : Prop :=
  ∃ ys y P, sklearn.predict m X = inr ys ∧ ys !! 0%nat = Some y ∧ int y = inr z ∧
            predict_proba m X = inr P ∧ P !! 0%nat = Some p.

(** The model rejects the input [X] with [e]: [predict] raises [e], or
    [predict] returns a label and [predict_proba] raises [e]. *)
Definition rejects {L : Type} `{Int L} (m : Classifier L) (X : np.ndarray) (e : exn) : Prop :=
  sklearn.predict m X = inl e ∨
  ∃ ys y z, sklearn.predict m X = inr ys ∧ ys !! 0%nat = Some y ∧ int y = inr z ∧
            predict_proba m X = inl e.

Definition is_load (ev : event) : bool :=
  match ev with
  | joblib_load _ => true
  | _ => false
  end.

Definition model_path : string := "/opt/ml/model/model.joblib".

(** The state of the Model Holder after startup, from what [joblib.load]
    does: loaded, or load failed. *)
Definition holder_after_startup {L : Type} (load : string → result (Classifier L))
    : option (Classifier L) :=
  match load model_path with
  | inr m => Some m
  | inl _ => None
  end.

(** How the handler ends on an exception [e] of its [try] block. *)
Definition bad_input {L : Type} (e : exn) (s : process L) : outcome PredictionResponse * process L :=
  (Raise (HTTPException 400 ("Prediction error: " ++ str e)), s).

(** *** Two classifiers to run the server on *)

(** A classifier over four features and the classes 0 and 1, which checks
    the number of features of its input as scikit-learn's estimators do. *)
Definition four_features (X : np.ndarray) : result unit :=
  match np.shape X with
  | [_; 4%nat] => inr ()
  | _ => inl (Exception "X has a different number of features than the 4 the classifier is expecting")
  end.

Definition threshold_classifier : Classifier Z :=
  {| n_features_in_ := 4;
     classes_ := [0; 1];
     sklearn.predict := λ X,
       match four_features X with
       | inl e => inl e
       | inr _ => inr [if (default 0%float (np.data X !! 0%nat) <=? 0.5)%float then 0 else 1]
       end;
     sklearn.predict_proba := λ X,
       match four_features X with
       | inl e => inl e
       | inr _ => inr [[0.25%float; 0.75%float]]
       end |}.

(** A classifier that ignores the features of its input, as scikit-learn's
    [DummyClassifier] does: it never looks at the number of columns. *)
Definition prior_classifier : Classifier Z :=
  {| n_features_in_ := 4;
     classes_ := [0];
     sklearn.predict := λ _, inr [0];
     sklearn.predict_proba := λ _, inr [[1%float]] |}.

(** A classifier over four features and three classes whose
    [predict_proba] gives a score per class that is not normalised, as an
    estimator fitted one class against the rest can: the scores do not sum
    to 1. *)
Definition unnormalised_classifier : Classifier Z :=
  {| n_features_in_ := 4;
     classes_ := [0; 1; 2];
     sklearn.predict := λ X,
       match four_features X with
       | inl e => inl e
       | inr _ => inr [0]
       end;
     sklearn.predict_proba := λ X,
       match four_features X with
       | inl e => inl e
       | inr _ => inr [[0.5%float; 0.5%float; 0.5%float]]
       end |}.

(** *** A run of the training script *)

(** Stand-ins for the libraries: a data frame is the text it was read
    from, the model remembers its number of trees, every prediction is
    right. *)
Definition toy_libraries : train_script.Libraries :=
  {| train_script.DataFrame := string;
     train_script.Matrix := unit;
     train_script.Vector := unit;
     train_script.RandomForestClassifier := Z;
     train_script.read_csv := λ text, inr text;
     train_script.shape_str := λ _, "(2, 3)";
     train_script.iloc_features := λ _, inr ();
     train_script.iloc_target := λ _, inr ();
     train_script.fit := λ n_estimators _ _ _ _ _, inr n_estimators;
     train_script.rf_predict := λ _ _, inr ();
     train_script.accuracy_score := λ _ _, inr 1%float;
     train_script.classification_report := λ _ _, inr "accuracy 1.00";
     train_script.format_4f := λ _, "1.0000";
     train_script.float_repr := λ _, "1.0";
     train_script.joblib_dumps := λ n, "forest of " ++ pretty n |}.

Definition toy_world : train_script.world :=
  {| train_script.files :=
       {[ "/opt/ml/input/data/train/train.csv" := "a,b,y";
          "/opt/ml/input/data/test/test.csv" := "a,b,y" ]};
     train_script.writable := λ _, true;
     train_script.stdout := [] |}.

End spec.

(** ** More vocabulary: the server over many requests *)

Module server_spec.
Import python sklearn app spec.

(** The feature lists of the POST /invocations requests, in order. *)
Definition posted (reqs : list request) : list (list float) :=
  flat_map (λ r, match r with POST_invocations b => [features b] | _ => [] end) reqs.

(** The inputs of the calls of the model's [predict] and [predict_proba]
    in a trace, in order. *)
Definition predict_calls (tr : list event) : list np.ndarray :=
  flat_map (λ ev, match ev with model_predict X => [X] | _ => [] end) tr.

Definition proba_calls (tr : list event) : list np.ndarray :=
  flat_map (λ ev, match ev with model_predict_proba X => [X] | _ => [] end) tr.

(** A classifier whose labels are floats and whose prediction is NaN: a
    label that [int] cannot convert. *)
Definition nan_label_classifier : Classifier float :=
  {| n_features_in_ := 1;
     classes_ := [nan];
     sklearn.predict := λ _, inr [nan];
     sklearn.predict_proba := λ _, inr [[1%float]] |}.

(** A classifier whose [predict] returns an array without entries. *)
Definition silent_classifier : Classifier Z :=
  {| n_features_in_ := 1;
     classes_ := [];
     sklearn.predict := λ _, inr [];
     sklearn.predict_proba := λ _, inr [] |}.

End server_spec.

(** ** More vocabulary: the training script in any run *)

Module train_spec.
Import python train_script spec.

(** From [w] to [w'] the script has only printed: the same files with the
    same text, the same paths open for writing, and the output of [w]
    followed by more lines. *)
Definition only_printed (w w' : world) : Prop :=
  files w' = files w ∧ writable w' = writable w ∧
  ∃ lines, stdout w' = (stdout w ++ lines)%list.

(** What the script prints before it loads the data. *)
Definition banner (args : Namespace) : list string :=
  [str_mul "=" 80;
   "SageMaker Training Job";
   str_mul "=" 80;
   "Hyperparameters: n_estimators=" ++ pretty (n_estimators args)
     ++ ", max_depth=" ++ pretty (max_depth args);
   ""].

(** The world of [toy_world] when the system refuses every write, and when
    the data files are not there. *)
Definition read_only_world : world :=
  {| files := files toy_world; writable := λ _, false; stdout := [] |}.


End train_spec.

(** ** Python values as boto3 returns and takes them *)

Module pyobj.
Import python.

#[local] Set Warnings "-register-all".

(** The values of JSON-like data: [None], booleans, numbers, strings, lists
    and dicts with string keys. *)
Inductive value : Type :=
| VNone
| VBool (b : bool)
| VInt (z : Z)
| VFloat (f : float)
| VStr (s : string)
| VList (l : list value)
| VDict (d : gmap string value).

(** [v[k]] with a string [k]: the entry of a dict, [KeyError] (whose [str]
    is the [repr] of the key) when it has none, [TypeError] on what is not
    a dict. *)
Definition getitem_key (v : value) (k : string) : result value :=
  match v with
  | VDict d =>
      match d !! k with
      | Some x => inr x
      | None => inl (Exception ("'" ++ k ++ "'"))
      end
  | VList _ => inl (Exception "list indices must be integers or slices, not str")
  | VStr _ => inl (Exception "string indices must be integers, not 'str'")
  | VNone => inl (Exception "'NoneType' object is not subscriptable")
  | VBool _ => inl (Exception "'bool' object is not subscriptable")
  | VInt _ => inl (Exception "'int' object is not subscriptable")
  | VFloat _ => inl (Exception "'float' object is not subscriptable")
  end.

(** [v[0]]: the first entry of a list or the first character of a string,
    [IndexError] when empty; a dict with string keys has no key [0]. *)
Definition getitem_0 (v : value) : result value :=
  match v with
  | VList l =>
      match l with
      | x :: _ => inr x
      | [] => inl (Exception "list index out of range")
      end
  | VStr s =>
      match s with
      | String c _ => inr (VStr (String c EmptyString))
      | EmptyString => inl (Exception "string index out of range")
      end
  | VDict _ => inl (Exception "0")
  | VNone => inl (Exception "'NoneType' object is not subscriptable")
  | VBool _ => inl (Exception "'bool' object is not subscriptable")
  | VInt _ => inl (Exception "'int' object is not subscriptable")
  | VFloat _ => inl (Exception "'float' object is not subscriptable")
  end.

End pyobj.

(** ** ai/src/bedrock_example.py: the conversation with history *)

Module bedrock_example.
Import python pyobj.

(** The list object [messages] that the caller passes and the function
    appends to in place, and the calls of [bedrock_runtime.converse] so
    far, each with its model id, the messages as they were at the call and
    the inference configuration. *)
Record state : Type := {
  messages : list value;
  sent : list (string * list value * value)
}.

(** [messages.append(m)] *)
Definition append (m : value) : M state unit := λ s,
  (Return (), {| messages := messages s ++ [m]; sent := sent s |}).

(** [bedrock_runtime.converse(modelId=..., messages=messages,
    inferenceConfig=...)]: [service] is what Bedrock answers or raises. *)
Definition converse (service : string → list value → value → result value)
    (model_id : string) (inference_config : value) : M state value := λ s,
  let s' := {| messages := messages s;
               sent := sent s ++ [(model_id, messages s, inference_config)] |} in
  match service model_id (messages s) inference_config with
  | inl e => (Raise e, s')
  | inr response => (Return response, s')
  end.

(** Reading the list object. *)
Definition get_messages : M state (list value) := λ s, (Return (messages s), s).

Definition turn (role : string) (text : value) : value :=
  VDict {[ "role" := VStr role; "content" := VList [VDict {[ "text" := text ]}] ]}.

(** [converse_with_history(messages, user_message, model_id)]; the list it
    returns beside the answer is the list object it was given. *)
Definition converse_with_history (service : string → list value → value → result value)
    (user_message : string) (model_id : string) : M state (value * list value) :=
  append (turn "user" (VStr user_message));;
  response ← converse service model_id
                (VDict {[ "maxTokens" := VInt 512; "temperature" := VFloat 0x1.6666666666666p-1 ]});
  output ← call (getitem_key response "output");
  message ← call (getitem_key output "message");
  content ← call (getitem_key message "content");
  block ← call (getitem_0 content);
  assistant_message ← call (getitem_key block "text");
  append (turn "assistant" assistant_message);;
  returned ← get_messages;
  mret (assistant_message, returned).

End bedrock_example.

(** ** More vocabulary: conversations *)

Module chat_spec.
Import python pyobj bedrock_example.

(** The inference configuration of [converse_with_history]. *)
Definition history_config : value :=
  VDict {[ "maxTokens" := VInt 512; "temperature" := VFloat 0x1.6666666666666p-1 ]}.

(** [response["output"]["message"]["content"][0]["text"]] *)
Definition answer_text (response : value) : result value :=
  match getitem_key response "output" with
  | inl e => inl e
  | inr output =>
      match getitem_key output "message" with
      | inl e => inl e
      | inr message =>
          match getitem_key message "content" with
          | inl e => inl e
          | inr content =>
              match getitem_0 content with
              | inl e => inl e
              | inr block => getitem_key block "text"
              end
          end
      end
  end.

(** The list the service is asked with: the list so far and the user's
    turn. *)
Definition asked (s : state) (user_message : string) : list value :=
  messages s ++ [turn "user" (VStr user_message)].

(** A message is a dict whose role is [r]. *)
Definition is_role (r : string) (m : value) : bool :=
  match m with
  | VDict d =>
      match d !! "role" with
      | Some (VStr r') => bool_decide (r' = r)
      | _ => false
      end
  | _ => false
  end.

(** A list of messages is a dialogue: a user's turn, the assistant's
    answer, a user's turn, the assistant's answer, and so on to the end. *)
Fixpoint dialogue (msgs : list value) : bool :=
  match msgs with
  | [] => true
  | u :: rest =>
      match rest with
      | [] => false
      | a :: rest' => is_role "user" u && is_role "assistant" a && dialogue rest'
      end
  end.

(** One call of [converse_with_history] on the list, with any message,
    against any service, ending any way. *)
Definition call_step (s s' : state) : Prop :=
  ∃ service user_message model_id o,
    converse_with_history service user_message model_id s = (o, s').

(** A service that answers "ok" in the shape Bedrock documents, and one
    that is throttled. *)
Definition ok_service : string → list value → value → result value := λ _ _ _,
  inr (VDict {[ "output" :=
    VDict {[ "message" :=
      VDict {[ "role" := VStr "assistant";
               "content" := VList [VDict {[ "text" := VStr "ok" ]}] ]} ]} ]}).

Definition throttled_service : string → list value → value → result value := λ _ _ _,
  inl (Exception "ThrottlingException").

Definition fresh : state := {| messages := []; sent := [] |}.

End chat_spec.

(** ** examples/sagemaker/inference.py: endpoints *)

Module sagemaker_inference.
Import python pyobj.

(** What the method does outside itself: the operations it asks of the
    SageMaker client, each with its argument, and the lines it prints. *)
Inductive event : Type :=
| api (operation : string) (argument : value)
| printed (line : string).

(** The client [boto3.client("sagemaker")] gives: what each operation
    returns or raises. *)
Record client : Type := {
  delete_endpoint_api : string → result value;
  describe_endpoint_api : string → result value;
  delete_endpoint_config_api : value → result value;
  list_endpoints_api : result value
}.

Definition invoke (operation : string) (argument : value) (r : result value)
    : M (list event) value := λ tr,
  (match r with inl e => Raise e | inr v => Return v end,
   (tr ++ [api operation argument])%list).

Definition print (line : string) : M (list event) unit := λ tr,
  (Return (), (tr ++ [printed line])%list).

(** [delete_endpoint(self, endpoint_name)]. [boto3_client] is what
    [boto3.client("sagemaker")] does; [format] is how an f-string writes a
    value. The bare [except] swallows what its [try] raises. *)
Definition delete_endpoint (boto3_client : result client) (format : value → string)
    (endpoint_name : string) : M (list event) unit :=
  sm_client ← call boto3_client;
  print ("Deleting endpoint: " ++ endpoint_name);;
  invoke "DeleteEndpoint" (VStr endpoint_name) (delete_endpoint_api sm_client endpoint_name);;
  try_except
    (description ← invoke "DescribeEndpoint" (VStr endpoint_name)
                     (describe_endpoint_api sm_client endpoint_name);
     endpoint_config ← call (getitem_key description "EndpointConfigName");
     invoke "DeleteEndpointConfig" endpoint_config
       (delete_endpoint_config_api sm_client endpoint_config);;
     print ("Deleted endpoint configuration: " ++ format endpoint_config))
    (λ _, mret ());;
  print ("Endpoint deleted: " ++ endpoint_name).

(** [for x in v]: the entries of a list, the characters of a string, the
    keys of a dict (in an order that is not modelled), [TypeError] on the
    rest. *)
Fixpoint characters (s : string) : list value :=
  match s with
  | EmptyString => []
  | String c s' => VStr (String c EmptyString) :: characters s'
  end.

Definition iterate (v : value) : result (list value) :=
  match v with
  | VList l => inr l
  | VStr s => inr (characters s)
  | VDict d => inr (VStr <$> elements (dom d))
  | VNone => inl (Exception "'NoneType' object is not iterable")
  | VBool _ => inl (Exception "'bool' object is not iterable")
  | VInt _ => inl (Exception "'int' object is not iterable")
  | VFloat _ => inl (Exception "'float' object is not iterable")
  end.

(** [[ep["EndpointName"] for ep in items]], entry after entry. *)
Fixpoint endpoint_names (items : list value) : M (list event) (list value) :=
  match items with
  | [] => mret []
  | ep :: items' =>
      name ← call (getitem_key ep "EndpointName");
      names ← endpoint_names items';
      mret (name :: names)
  end.

(** [list_endpoints(self)] *)
Definition list_endpoints (boto3_client : result client) : M (list event) (list value) :=
  sm_client ← call boto3_client;
  response ← invoke "ListEndpoints" VNone (list_endpoints_api sm_client);
  endpoints ← call (getitem_key response "Endpoints");
  items ← call (iterate endpoints);
  endpoint_names items.

(** A client for which every operation works, on one endpoint. *)
Definition working_client : client :=
  {| delete_endpoint_api := λ _, inr (VDict ∅);
     describe_endpoint_api := λ _, inr (VDict {[ "EndpointConfigName" := VStr "config-1" ]});
     delete_endpoint_config_api := λ _, inr (VDict ∅);
     list_endpoints_api :=
       inr (VDict {[ "Endpoints" := VList [VDict {[ "EndpointName" := VStr "endpoint-1" ]}];
                     "NextToken" := VStr "more" ]}) |}.

(** A client that deletes the endpoint and then no longer finds it. *)
Definition forgetful_client : client :=
  {| delete_endpoint_api := λ _, inr (VDict ∅);
     describe_endpoint_api := λ _, inl (Exception "Could not find endpoint");
     delete_endpoint_config_api := λ _, inr (VDict ∅);
     list_endpoints_api := inr (VDict {[ "Endpoints" := VList [VDict ∅] ]}) |}.

(** A client that may not delete. *)
Definition denied_client : client :=
  {| delete_endpoint_api := λ _, inl (Exception "AccessDeniedException");
     describe_endpoint_api := λ _, inr (VDict {[ "EndpointConfigName" := VStr "config-1" ]});
     delete_endpoint_config_api := λ _, inr (VDict ∅);
     list_endpoints_api := inl (Exception "AccessDeniedException") |}.

Definition show (v : value) : string :=
  match v with
  | VStr s => s
  | _ => "?"
  end.

Definition is_api (operation : string) (ev : event) : bool :=
  match ev with
  | api op _ => bool_decide (op = operation)
  | printed _ => false
  end.

End sagemaker_inference.

(** ** Properties of the inference server *)

Module app_properties.
Import python sklearn app spec.

Ltac run_M :=
  unfold mbind, M_bind, mret, M_ret, raise, try_except, call,
    get_model, set_model, emit in *; simpl in *.

(** *** The embedding at work *)

Example reshape_three : np.reshape (np.array [1; 2; 3]%float) [1; -1] =
  inr {| np.shape := [1%nat; 3%nat]; np.data := [1; 2; 3]%float |}.
Proof. reflexivity. Qed.

Example reshape_three_in_two_rows : np.reshape (np.array [1; 2; 3]%float) [2; -1] =
  inl np.reshape_error.
Proof. reflexivity. Qed.

Example int_truncates : int (-2.5)%float = inr (-2) ∧ int infinity =
  inl (Exception "cannot convert float infinity to integer").
Proof. split; reflexivity. Qed.

Example predict_four_features :
  predict {| features := [1; 2; 3; 4]%float |}
          {| model := Some threshold_classifier; trace := [] |} =
  (Return {| prediction := 1; probability := [0.25; 0.75]%float |},
   {| model := Some threshold_classifier;
      trace := [model_predict (row [1; 2; 3; 4]%float);
                model_predict_proba (row [1; 2; 3; 4]%float)] |}).
Proof. reflexivity. Qed.

Example server_without_model :
  uvicorn_run (L := Z) (λ _, inl (Exception "No such file"))
    [GET_ping; POST_invocations {| features := [1]%float |}] =
  Some ([{| status := 503; body := json_detail "Model not loaded" |};
         {| status := 503; body := json_detail "Model not loaded" |}],
        {| model := None;
           trace := [joblib_load "/opt/ml/model/model.joblib";
                     print "Warning: Could not load model: No such file";
                     print "Using dummy model for testing"] |}).
Proof. reflexivity. Qed.

(** [np.array(x).reshape(1, -1)] never raises, whatever the length of [x],
    and gives one row with the elements of [x] in order. *)
Lemma reshape_row (x : list float) :
  np.reshape (np.array x) [1; -1] = inr (row x).
Proof.
  unfold np.reshape, np.array, np.size, row.
  cbn -[Nat.div Nat.modulo].
  rewrite Nat.mod_1_r, Nat.div_1_r. reflexivity.
Qed.

(** The handler on a loaded model, step by step. *)
Lemma predict_loaded {L : Type} `{Int L} (m : Classifier L) (tr : list event) (x : list float) :
  predict {| features := x |} {| model := Some m; trace := tr |} =
  let X := row x in
  let s1 := {| model := Some m; trace := tr ++ [model_predict X] |} in
  let s2 := {| model := Some m; trace := (tr ++ [model_predict X]) ++ [model_predict_proba X] |} in
  match sklearn.predict m X with
  | inl e => bad_input e s1
  | inr ys =>
      match getitem0 ys with
      | inl e => bad_input e s1
      | inr y =>
          match int y with
          | inl e => bad_input e s1
          | inr z =>
              match predict_proba m X with
              | inl e => bad_input e s2
              | inr P =>
                  match getitem0 P with
                  | inl e => bad_input e s2
                  | inr p => (Return {| prediction := z; probability := p |}, s2)
                  end
              end
          end
      end
  end.
Proof.
  unfold predict, mbind, M_bind, get_model, try_except.
  cbn [model features]. rewrite reshape_row. run_M.
  destruct (sklearn.predict m (row x)) as [e|ys]; [reflexivity|]. simpl.
  destruct (getitem0 ys) as [e|y]; [reflexivity|]. simpl.
  destruct (int y) as [e|z]; [reflexivity|]. simpl.
  destruct (predict_proba m (row x)) as [e|P]; [reflexivity|]. simpl.
  destruct (getitem0 P) as [e|p]; reflexivity.
Qed.

Lemma getitem0_Some {A : Type} (xs : list A) (x : A) :
  xs !! 0%nat = Some x → getitem0 xs = inr x.
Proof. unfold getitem0. intros ->. reflexivity. Qed.

Lemma getitem0_inr {A : Type} (xs : list A) (x : A) :
  getitem0 xs = inr x → xs !! 0%nat = Some x.
Proof. unfold getitem0. destruct (xs !! 0%nat); congruence. Qed.

(** When the model accepts the row, the handler returns its label and its
    first probability row, after one call of each method. *)
Lemma predict_accepts {L : Type} `{Int L} (m : Classifier L) (tr : list event)
    (x : list float) (z : Z) (p : list float) :
  accepts m (row x) z p →
  predict {| features := x |} {| model := Some m; trace := tr |} =
    (Return {| prediction := z; probability := p |},
     {| model := Some m;
        trace := (tr ++ [model_predict (row x)]) ++ [model_predict_proba (row x)] |}).
Proof.
  intros (ys & y & P & Hys & Hy & Hz & HP & Hp).
  rewrite predict_loaded. simpl.
  rewrite Hys, (getitem0_Some _ _ Hy), Hz, HP, (getitem0_Some _ _ Hp). reflexivity.
Qed.

(** When the handler returns, the model accepted the row with what is
    returned. *)
Lemma predict_Return_inv {L : Type} `{Int L} (m : Classifier L) (tr : list event)
    (x : list float) (r : PredictionResponse) (s' : process L) :
  predict {| features := x |} {| model := Some m; trace := tr |} = (Return r, s') →
  accepts m (row x) (prediction r) (probability r).
Proof.
  rewrite predict_loaded. simpl. unfold bad_input, accepts.
  destruct (sklearn.predict m (row x)) as [e|ys] eqn:Hys; [congruence|].
  destruct (getitem0 ys) as [e|y] eqn:Hy; [congruence|].
  destruct (int y) as [e|z] eqn:Hz; [congruence|].
  destruct (predict_proba m (row x)) as [e|P] eqn:HP; [congruence|].
  destruct (getitem0 P) as [e|p] eqn:Hp; [congruence|].
  intros [= <- <-]. simpl.
  exists ys, y, P. repeat split; auto using getitem0_inr.
Qed.

(** When the model rejects the row, the handler raises the 400 error with
    the model's message. *)
Lemma predict_rejects {L : Type} `{Int L} (m : Classifier L) (tr : list event)
    (x : list float) (e : exn) :
  rejects m (row x) e →
  fst (predict {| features := x |} {| model := Some m; trace := tr |}) =
    Raise (HTTPException 400 ("Prediction error: " ++ str e)).
Proof.
  rewrite predict_loaded. simpl.
  intros [Hys | (ys & y & z & Hys & Hy & Hz & HP)].
  - rewrite Hys. reflexivity.
  - rewrite Hys, (getitem0_Some _ _ Hy), Hz, HP. reflexivity.
Qed.

(** On a loaded model the handler ends in a response or in the 400 error:
    no other exception leaves it. *)
Lemma predict_total {L : Type} `{Int L} (m : Classifier L) (tr : list event) (x : list float) :
  (∃ r, fst (predict {| features := x |} {| model := Some m; trace := tr |}) = Return r) ∨
  (∃ e, fst (predict {| features := x |} {| model := Some m; trace := tr |}) =
          Raise (HTTPException 400 ("Prediction error: " ++ str e))).
Proof.
  rewrite predict_loaded. simpl. unfold bad_input.
  destruct (sklearn.predict m (row x)) as [e|ys]; [right; eauto|].
  destruct (getitem0 ys) as [e|y]; [right; eauto|].
  destruct (int y) as [e|z]; [right; eauto|].
  destruct (predict_proba m (row x)) as [e|P]; [right; eauto|].
  destruct (getitem0 P) as [e|p]; [right; eauto|left; eauto].
Qed.

(** The handler's trace on a loaded model: the call of [predict] on the
    row comes first, and nothing is a load. *)
Lemma predict_trace {L : Type} `{Int L} (m : Classifier L) (tr : list event) (x : list float) :
  ∃ evs, snd (predict {| features := x |} {| model := Some m; trace := tr |}) =
           {| model := Some m; trace := tr ++ model_predict (row x) :: evs |} ∧
         Forall (λ ev, is_load ev = false) evs.
Proof.
  rewrite predict_loaded. simpl. unfold bad_input.
  destruct (sklearn.predict m (row x)) as [e|ys]; [exists []; split; [reflexivity|constructor]|].
  destruct (getitem0 ys) as [e|y]; [exists []; split; [reflexivity|constructor]|].
  destruct (int y) as [e|z]; [exists []; split; [reflexivity|constructor]|].
  destruct (predict_proba m (row x)) as [e|P];
    [|destruct (getitem0 P) as [e|p]];
    exists [model_predict_proba (row x)]; rewrite <- app_assoc;
    (split; [reflexivity|repeat constructor]).
Qed.

(** *** The server: what a request can change *)

Lemma load_model_initial {L : Type} (load : string → result (Classifier L)) :
  load_model load initial =
  match load model_path with
  | inr m =>
      (Return (), {| model := Some m;
                     trace := [joblib_load model_path; print "Model loaded successfully"] |})
  | inl e =>
      (Return (), {| model := None;
                     trace := [joblib_load model_path;
                               print ("Warning: Could not load model: " ++ str e);
                               print "Using dummy model for testing"] |})
  end.
Proof.
  unfold load_model, model_path. run_M.
  destruct (load "/opt/ml/model/model.joblib"); reflexivity.
Qed.

(** A request leaves the global [model] as it is and adds no load to the
    trace. *)
Lemma route_step {L : Type} `{Int L} (r : request) (s : process L) :
  ∃ evs, snd (route r s) = {| model := model s; trace := trace s ++ evs |} ∧
         Forall (λ ev, is_load ev = false) evs.
Proof.
  destruct s as [[m|] tr]; destruct r as [|[x]|]; simpl;
    try (exists []; rewrite app_nil_r; split; [reflexivity|constructor]).
  destruct (predict_trace m tr x) as (evs & Hs & Hevs).
  exists (model_predict (row x) :: evs). split; [|constructor; [reflexivity|assumption]].
  unfold mbind, M_bind.
  destruct (predict {| features := x |} {| model := Some m; trace := tr |}) as [[r|e] s'];
    simpl in *; assumption.
Qed.

Lemma serve_step {L : Type} `{Int L} (reqs : list request) (s : process L) :
  ∃ evs, snd (serve reqs s) = {| model := model s; trace := trace s ++ evs |} ∧
         Forall (λ ev, is_load ev = false) evs ∧
         length (fst (serve reqs s)) = length reqs.
Proof.
  revert s. induction reqs as [|r reqs IH]; intros s; simpl.
  - exists []. rewrite app_nil_r. destruct s; repeat split; constructor.
  - destruct (route_step r s) as (evs1 & Hs1 & Hevs1).
    destruct (route r s) as [o s1]. simpl in Hs1. subst s1.
    destruct (IH {| model := model s; trace := trace s ++ evs1 |}) as (evs2 & Hs2 & Hevs2 & Hlen).
    destruct (serve reqs _) as [resps s2]. simpl in *. subst s2.
    exists (evs1 ++ evs2)%list. rewrite app_assoc.
    repeat split; [apply Forall_app; split; assumption | congruence].
Qed.

Lemma serve_app {L : Type} `{Int L} (reqs1 reqs2 : list request) (s : process L) :
  serve (reqs1 ++ reqs2) s =
  ((fst (serve reqs1 s) ++ fst (serve reqs2 (snd (serve reqs1 s))))%list,
   snd (serve reqs2 (snd (serve reqs1 s)))).
Proof.
  revert s. induction reqs1 as [|r reqs1 IH]; intros s; simpl.
  - destruct (serve reqs2 s); reflexivity.
  - destruct (route r s) as [o s1]. rewrite IH.
    destruct (serve reqs1 s1) as [resps1 s2]. simpl.
    destruct (serve reqs2 s2); reflexivity.
Qed.

(** *** The claims about the server *)

(** C1, as stated, fails: for a feature vector of the model's input
    dimensionality, submitted while the model is loaded, a response is
    returned whose probability sequence has as many entries as the model
    has classes and does not sum to 1.0 within 1e-6, because the model's own
    row does not. *)
Lemma C1_returned_probabilities_need_not_sum_to_one :
  length [1; 2; 3; 4]%float = n_features_in_ unnormalised_classifier ∧
  ∃ r s',
    predict {| features := [1; 2; 3; 4]%float |}
            {| model := Some unnormalised_classifier; trace := [] |} = (Return r, s') ∧
    probability r = [0.5; 0.5; 0.5]%float ∧
    length (probability r) = n_classes unnormalised_classifier ∧
    sums_to_one (probability r) = false.
Proof.
  split; [reflexivity|]. eexists _, _. split; [reflexivity|]. repeat split.
Qed.

(** C1, amended. For every feature vector submitted while the model is
    loaded, the probability sequence of a returned response is the first
    row of the model's [predict_proba] on the single row built from the
    vector, unchanged, and a response is returned whenever the model
    accepts the row. So the sequence has as many entries as the model has
    classes and sums to 1.0 within 1e-6 exactly when that row of the model
    does: the handler neither checks nor normalises it. *)
Theorem C1_probabilities_are_the_models_first_row {L : Type} `{Int L}
    (m : Classifier L) (tr : list event) (x : list float) :
  (∀ r s', predict {| features := x |} {| model := Some m; trace := tr |} = (Return r, s') →
     ∃ P, predict_proba m (row x) = inr P ∧ P !! 0%nat = Some (probability r)) ∧
  (∀ z p, accepts m (row x) z p →
     ∃ s', predict {| features := x |} {| model := Some m; trace := tr |} =
             (Return {| prediction := z; probability := p |}, s')) ∧
  (∀ r s' P p,
     predict {| features := x |} {| model := Some m; trace := tr |} = (Return r, s') →
     predict_proba m (row x) = inr P →
     P !! 0%nat = Some p →
     probability r = p ∧
     ((length (probability r) = n_classes m ∧ sums_to_one (probability r) = true) ↔
      (length p = n_classes m ∧ sums_to_one p = true))).
Proof.
  split; [|split].
  - intros r s' Hr.
    apply predict_Return_inv in Hr as (ys & y & P & _ & _ & _ & HP & Hp).
    exists P. split; assumption.
  - intros z p Hacc. eexists. apply predict_accepts, Hacc.
  - intros r s' P p Hr HP Hp.
    apply predict_Return_inv in Hr as (ys & y & P' & _ & _ & _ & HP' & Hp').
    assert (Heq : probability r = p) by congruence.
    split; [exact Heq|]. rewrite Heq. reflexivity.
Qed.

(** C2. While the Model Holder is empty, every request to POST /invocations
    ends in the 503 error; the process state, and with it the trace, is as
    before, so no method of a model was called; the response sent is the 503
    one. *)
Theorem C2_empty_holder_is_unavailable {L : Type} `{Int L}
    (request : PredictionRequest) (s : process L) :
  model s = None →
  predict request s = (Raise (HTTPException 503 "Model not loaded"), s) ∧
  fst (serve [POST_invocations request] s) =
    [{| status := 503; body := json_detail "Model not loaded" |}].
Proof.
  intros Hs. destruct s as [m tr]. simpl in Hs. subst m. split; reflexivity.
Qed.

Lemma C2_witness :
  predict {| features := [1; 2]%float |} (@initial Z) =
    (Raise (HTTPException 503 "Model not loaded"), initial) ∧
  fst (serve [POST_invocations {| features := [1; 2]%float |}] (@initial Z)) =
    [{| status := 503; body := json_detail "Model not loaded" |}].
Proof.
  apply (C2_empty_holder_is_unavailable {| features := [1; 2]%float |} (@initial Z)).
  reflexivity.
Defined.

(** C3. GET /ping returns the healthy status if and only if the Model
    Holder is non-empty; when the model is None it raises the 503 error. It
    changes nothing. *)
Theorem C3_health_check_iff_loaded {L : Type} (s : process L) :
  (fst (health_check s) = Return {[ "status" := "healthy" ]} ↔ model s ≠ None) ∧
  (model s = None → fst (health_check s) = Raise (HTTPException 503 "Model not loaded")) ∧
  snd (health_check s) = s.
Proof.
  destruct s as [[m|] tr]; simpl; repeat split; try congruence; try discriminate.
Qed.

(** C4. When the loaded model rejects the row built from a feature vector,
    the handler raises the 400 error with the model's message; the request
    gets the 400 response and the requests before and after it are all
    answered, on the same model. Whatever is raised inside the handler's
    [try], the handler ends in a response or in the 400 error. *)
Theorem C4_rejected_input_is_bad_input {L : Type} `{Int L}
    (m : Classifier L) (x : list float) (e : exn) :
  rejects m (row x) e →
  (∀ tr, fst (predict {| features := x |} {| model := Some m; trace := tr |}) =
           Raise (HTTPException 400 ("Prediction error: " ++ str e))) ∧
  (∀ before after (s : process L), model s = Some m →
     ∃ r1 r2 s',
       serve (before ++ POST_invocations {| features := x |} :: after) s =
         ((r1 ++ {| status := 400; body := json_detail ("Prediction error: " ++ str e) |} :: r2)%list, s') ∧
       length r1 = length before ∧ length r2 = length after ∧ model s' = Some m) ∧
  (∀ x' tr,
     (∃ r, fst (predict {| features := x' |} {| model := Some m; trace := tr |}) = Return r) ∨
     (∃ e', fst (predict {| features := x' |} {| model := Some m; trace := tr |}) =
              Raise (HTTPException 400 ("Prediction error: " ++ str e')))).
Proof.
  intros Hrej. split; [|split].
  - intros tr. apply predict_rejects, Hrej.
  - intros before after s Hs. rewrite serve_app.
    destruct (serve_step before s) as (evs1 & Hs1 & _ & Hlen1).
    destruct (serve before s) as [r1 s1]. simpl in *. subst s1. rewrite Hs.
    pose proof (predict_rejects m (trace s ++ evs1) x e Hrej) as Hp.
    unfold mbind, M_bind.
    destruct (predict _ _) as [o s2] eqn:Hpred. simpl in Hp. subst o.
    pose proof (predict_trace m (trace s ++ evs1) x) as (evs2 & Hs2 & _).
    rewrite Hpred in Hs2. simpl in Hs2. subst s2.
    destruct (serve_step after {| model := Some m;
                trace := (trace s ++ evs1) ++ model_predict (row x) :: evs2 |})
      as (evs3 & Hs3 & _ & Hlen3).
    destruct (serve after _) as [r2 s3]. simpl in *.
    exists r1, r2, s3. subst s3. repeat split; assumption.
  - intros x' tr. apply predict_total.
Qed.

Lemma threshold_classifier_rejects :
  rejects threshold_classifier (row [1; 2; 3]%float)
    (Exception "X has a different number of features than the 4 the classifier is expecting").
Proof. left. reflexivity. Qed.

Lemma C4_witness :
  fst (predict {| features := [1; 2; 3]%float |}
               {| model := Some threshold_classifier; trace := [] |}) =
    Raise (HTTPException 400
      "Prediction error: X has a different number of features than the 4 the classifier is expecting").
Proof.
  apply (proj1 (C4_rejected_input_is_bad_input threshold_classifier [1; 2; 3]%float _
                  threshold_classifier_rejects) []).
Defined.

(** C5. The handler reshapes the feature sequence into a single row with
    the same elements in the same order; when the model accepts that row,
    it calls [predict] and then [predict_proba] on it and returns the
    integer conversion of the first entry of the first and the first row of
    the second; when the model rejects the row, it raises the 400 error. *)
Theorem C5_predict_returns_the_model_output {L : Type} `{Int L}
    (m : Classifier L) (tr : list event) (x : list float) :
  np.reshape (np.array x) [1; -1] = inr (row x) ∧
  np.shape (row x) = [1%nat; length x] ∧ np.data (row x) = x ∧
  (∀ ys y z P p,
     sklearn.predict m (row x) = inr ys → ys !! 0%nat = Some y → int y = inr z →
     predict_proba m (row x) = inr P → P !! 0%nat = Some p →
     predict {| features := x |} {| model := Some m; trace := tr |} =
       (Return {| prediction := z; probability := p |},
        {| model := Some m;
           trace := (tr ++ [model_predict (row x)]) ++ [model_predict_proba (row x)] |})) ∧
  (∀ e, rejects m (row x) e →
     fst (predict {| features := x |} {| model := Some m; trace := tr |}) =
       Raise (HTTPException 400 ("Prediction error: " ++ str e))).
Proof.
  split; [apply reshape_row|]. do 2 (split; [reflexivity|]). split.
  - intros ys y z P p Hys Hy Hz HP Hp. apply predict_accepts.
    exists ys, y, P. repeat split; assumption.
  - intros e. apply predict_rejects.
Qed.

(** C6. Under [uvicorn.run] the load is attempted once, first of all: the
    trace starts with the one [joblib.load] and holds no other. The startup
    never fails, so every request is answered, whatever the load did. When
    the load raises, the warning is printed and the Model Holder stays
    empty; when it returns a model, the holder has that model. No request
    loads again. *)
Theorem C6_load_once_best_effort {L : Type} `{Int L}
    (load : string → result (Classifier L)) (reqs : list request) :
  ∃ resps s,
    uvicorn_run load reqs = Some (resps, s) ∧
    length resps = length reqs ∧
    (∃ evs, trace s = joblib_load "/opt/ml/model/model.joblib" :: evs ∧
            Forall (λ ev, is_load ev = false) evs) ∧
    (∀ e, load "/opt/ml/model/model.joblib" = inl e →
          model s = None ∧ print ("Warning: Could not load model: " ++ str e) ∈ trace s) ∧
    (∀ m, load "/opt/ml/model/model.joblib" = inr m → model s = Some m).
Proof.
  unfold uvicorn_run. rewrite load_model_initial. unfold model_path.
  destruct (load "/opt/ml/model/model.joblib") as [e|m].
  - match goal with |- context [serve reqs ?s0] =>
      destruct (serve_step reqs s0) as (evs & Hs & Hevs & Hlen);
      destruct (serve reqs s0) as [resps s] end.
    simpl in *. subst s. eexists resps, _. split; [reflexivity|]. split; [exact Hlen|].
    simpl. split; [|split].
    + eexists. split; [reflexivity|]. repeat constructor. exact Hevs.
    + intros e' [= <-]. split; [reflexivity|]. set_solver.
    + discriminate.
  - match goal with |- context [serve reqs ?s0] =>
      destruct (serve_step reqs s0) as (evs & Hs & Hevs & Hlen);
      destruct (serve reqs s0) as [resps s] end.
    simpl in *. subst s. eexists resps, _. split; [reflexivity|]. split; [exact Hlen|].
    simpl. split; [|split].
    + eexists. split; [reflexivity|]. repeat constructor. exact Hevs.
    + discriminate.
    + intros m' [= <-]. reflexivity.
Qed.

(** C7. No handler assigns the global [model]: a request, and so any
    sequence of requests, leaves it as it was. The holder starts empty, the
    startup takes it to loaded or to load-failed, and it is the same after
    any requests and after any further requests. *)
Theorem C7_holder_is_read_only_after_startup {L : Type} `{Int L} :
  (∀ (r : request) (s : process L), model (snd (route r s)) = model s) ∧
  (∀ (reqs : list request) (s : process L), model (snd (serve reqs s)) = model s) ∧
  model (@initial L) = None ∧
  (∀ (load : string → result (Classifier L)) (reqs more : list request),
     ∃ resps s resps' s',
       uvicorn_run load reqs = Some (resps, s) ∧
       uvicorn_run load (reqs ++ more) = Some (resps', s') ∧
       model s = holder_after_startup load ∧ model s' = model s).
Proof.
  assert (Hserve : ∀ (reqs : list request) (s : process L), model (snd (serve reqs s)) = model s).
  { intros reqs s. destruct (serve_step reqs s) as (evs & -> & _). reflexivity. }
  split; [|split; [exact Hserve|split; [reflexivity|]]].
  - intros r s. destruct (route_step r s) as (evs & -> & _). reflexivity.
  - intros load reqs more. unfold uvicorn_run, holder_after_startup.
    rewrite load_model_initial.
    destruct (load model_path) as [e|m];
      match goal with |- context [serve reqs ?s0] =>
        pose proof (Hserve reqs s0) as H1; pose proof (Hserve (reqs ++ more)%list s0) as H2;
        destruct (serve reqs s0) as [resps s]; destruct (serve (reqs ++ more)%list s0) as [resps' s']
      end;
      simpl in *; exists resps, s, resps', s'; repeat split; congruence.
Qed.

(** C8. Building the response has no way to fail and changes nothing: for
    the integer label and the probability vector the model call produced,
    the handler returns a response whose prediction is that label and whose
    probability is that vector. *)
Theorem C8_response_holds_label_and_probabilities {L : Type} `{Int L}
    (m : Classifier L) (tr : list event) (x : list float) (z : Z) (p : list float) :
  accepts m (row x) z p →
  ∃ r s', predict {| features := x |} {| model := Some m; trace := tr |} = (Return r, s') ∧
          prediction r = z ∧ probability r = p.
Proof.
  intros Hacc. eexists _, _. split; [apply predict_accepts, Hacc|]. split; reflexivity.
Qed.

Lemma C8_witness :
  ∃ r s', predict {| features := [1; 2; 3; 4]%float |}
                  {| model := Some threshold_classifier; trace := [] |} = (Return r, s') ∧
          prediction r = 1 ∧ probability r = [0.25; 0.75]%float.
Proof.
  apply (C8_response_holds_label_and_probabilities threshold_classifier []
           [1; 2; 3; 4]%float 1 [0.25; 0.75]%float).
  exists [1], 1, [[0.25; 0.75]%float]. repeat split.
Defined.

(** C10, as stated, fails: with a classifier that ignores the features of
    its input, an empty feature vector yields a prediction. *)
Lemma C10_empty_features_can_yield_a_prediction :
  fst (predict {| features := [] |} {| model := Some prior_classifier; trace := [] |}) =
    Return {| prediction := 0; probability := [1%float] |}.
Proof. reflexivity. Qed.

(** C10, amended. The handler has no check of its own on the features: an
    empty list becomes a row of no columns and the model's [predict] is
    called on it; what the model raises on it becomes the 400 error; the
    handler ends in a response or in the 400 error, never in another
    exception; and it returns a prediction only when the model itself
    accepted the empty row. *)
Theorem C10_empty_features_reach_the_model {L : Type} `{Int L}
    (m : Classifier L) (tr : list event) :
  np.reshape (np.array []) [1; -1] = inr {| np.shape := [1%nat; 0%nat]; np.data := [] |} ∧
  (∃ evs, trace (snd (predict {| features := [] |} {| model := Some m; trace := tr |})) =
            (tr ++ model_predict {| np.shape := [1%nat; 0%nat]; np.data := [] |} :: evs)%list) ∧
  (∀ e, rejects m (row []) e →
     fst (predict {| features := [] |} {| model := Some m; trace := tr |}) =
       Raise (HTTPException 400 ("Prediction error: " ++ str e))) ∧
  ((∃ r, fst (predict {| features := [] |} {| model := Some m; trace := tr |}) = Return r) ∨
   (∃ e, fst (predict {| features := [] |} {| model := Some m; trace := tr |}) =
           Raise (HTTPException 400 ("Prediction error: " ++ str e)))) ∧
  (∀ r s', predict {| features := [] |} {| model := Some m; trace := tr |} = (Return r, s') →
     accepts m (row []) (prediction r) (probability r)).
Proof.
  split; [apply (reshape_row [])|]. split; [|split; [|split]].
  - destruct (predict_trace m tr []) as (evs & -> & _). exists evs. reflexivity.
  - intros e. apply predict_rejects.
  - apply predict_total.
  - intros r s'. apply predict_Return_inv.
Qed.

End app_properties.

(** ** Properties of the training script *)

Module train_properties.
Import python train_script spec.

Lemma string_length_app (a b : string) :
  String.length (a ++ b) = (String.length a + String.length b)%nat.
Proof. induction a as [|c a IH]; simpl; [reflexivity|]. rewrite IH. reflexivity. Qed.

(** Two strings with suffixes of one length are equal only if the suffixes
    are. *)
Lemma string_app_suffix_inj (a b s t : string) :
  String.length s = String.length t → a ++ s = b ++ t → s = t.
Proof.
  intros Hlen. revert b. induction a as [|c a IH]; intros [|d b]; simpl; intros Heq.
  - exact Heq.
  - apply (f_equal String.length) in Heq. simpl in Heq.
    rewrite !string_length_app in Heq. simpl in Heq. lia.
  - apply (f_equal String.length) in Heq. simpl in Heq.
    rewrite !string_length_app in Heq. simpl in Heq. lia.
  - injection Heq as _ Heq. exact (IH _ Heq).
Qed.

Lemma string_app_assoc (a b c : string) : (a ++ b) ++ c = a ++ b ++ c.
Proof.
  induction a as [|x a IH]; [reflexivity|].
  exact (f_equal (String x) IH).
Qed.

(** Joining a directory and a relative name puts the name at the end. *)
Lemma os_path_join_relative (a b : string) :
  String.prefix "/" b = false → ∃ dir, os_path_join a b = dir ++ b ∧ (dir = a ∨ dir = a ++ "/").
Proof.
  intros Hb. unfold os_path_join. rewrite Hb.
  destruct (bool_decide (a = "") || endswith_sep a).
  - exists a. split; [reflexivity|left; reflexivity].
  - exists (a ++ "/"). split; [symmetry; apply string_app_assoc|right; reflexivity].
Qed.

Lemma metrics_path_is_not_model_path (output_data_dir model_dir : string) :
  os_path_join output_data_dir "metrics.json" ≠ os_path_join model_dir "model.joblib".
Proof.
  destruct (os_path_join_relative output_data_dir "metrics.json" eq_refl) as (d1 & -> & _).
  destruct (os_path_join_relative model_dir "model.joblib" eq_refl) as (d2 & -> & _).
  intros Heq. apply string_app_suffix_inj in Heq; [discriminate|reflexivity].
Qed.

(** *** Running the script's monad backwards from a return *)












(** *** The claim about the training script *)


Lemma toy_run_returns :
  @main toy_libraries (parse_args ∅) toy_world =
    (Return (), snd (@main toy_libraries (parse_args ∅) toy_world)).
Proof. vm_compute. reflexivity. Qed.


End train_properties.

(** ** More properties of the inference server *)

Module server_properties.
Import python sklearn app spec server_spec app_properties.

(** The trace of the handler on a loaded model, exactly. *)
Lemma predict_trace_exact {L : Type} `{Int L} (m : Classifier L) (tr : list event) (x : list float) :
  ∃ evs, snd (predict {| features := x |} {| model := Some m; trace := tr |}) =
           {| model := Some m; trace := tr ++ model_predict (row x) :: evs |} ∧
         (evs = [] ∨ evs = [model_predict_proba (row x)]).
Proof.
  rewrite predict_loaded. simpl. unfold bad_input.
  destruct (sklearn.predict m (row x)) as [e|ys]; [exists []; split; [reflexivity|left; reflexivity]|].
  destruct (getitem0 ys) as [e|y]; [exists []; split; [reflexivity|left; reflexivity]|].
  destruct (int y) as [e|z]; [exists []; split; [reflexivity|left; reflexivity]|].
  destruct (predict_proba m (row x)) as [e|P];
    [|destruct (getitem0 P) as [e|p]];
    exists [model_predict_proba (row x)]; rewrite <- app_assoc;
    (split; [reflexivity|right; reflexivity]).
Qed.

Lemma predict_calls_app (a b : list event) :
  predict_calls (a ++ b) = (predict_calls a ++ predict_calls b)%list.
Proof. apply flat_map_app. Qed.

Lemma serve_empty_holder {L : Type} `{Int L} (reqs : list request) (s : process L) :
  model s = None → snd (serve reqs s) = s.
Proof.
  intros Hs. induction reqs as [|r reqs IH]; [reflexivity|].
  simpl. destruct s as [m tr]. simpl in Hs. subst m.
  assert (Hr : snd (route r {| model := None; trace := tr |}) = {| model := None; trace := tr |})
    by (destruct r as [|[x]|]; reflexivity).
  destruct (route r _) as [o s1]. simpl in Hr. subst s1.
  destruct (serve reqs _) as [resps s2]. exact IH.
Qed.

(** X3. When the load fails at startup, the process still serves, but
    after any sequence of requests its state is the one the startup left:
    no model, and a trace of the load, the warning and the line about a
    dummy model only, so no method of any model was called. In that state
    the health check and the prediction handler, on every request, raise
    the 503 error "Model not loaded" and change nothing. The printed line
    about a dummy model changes none of this. *)
Theorem X3_failed_load_means_503_for_ever {L : Type} `{Int L}
    (load : string → result (Classifier L)) (e : exn) (reqs : list request) :
  load "/opt/ml/model/model.joblib" = inl e →
  ∃ resps s,
    uvicorn_run load reqs = Some (resps, s) ∧
    s = {| model := None;
           trace := [joblib_load "/opt/ml/model/model.joblib";
                     print ("Warning: Could not load model: " ++ str e);
                     print "Using dummy model for testing"] |} ∧
    health_check s = (Raise (HTTPException 503 "Model not loaded"), s) ∧
    (∀ request, predict request s = (Raise (HTTPException 503 "Model not loaded"), s)).
Proof.
  intros Hload. unfold uvicorn_run. rewrite load_model_initial. unfold model_path.
  rewrite Hload.
  match goal with |- context [serve reqs ?s0] =>
    pose proof (serve_empty_holder reqs s0 eq_refl) as Hs;
    destruct (serve reqs s0) as [resps s1] end.
  simpl in Hs. subst s1. eexists resps, _. split; [reflexivity|].
  split; [reflexivity|]. split; [reflexivity|]. intros request. reflexivity.
Qed.

Lemma X3_witness :
  ∃ resps s,
    uvicorn_run (L := Z) (λ _, inl (Exception "No such file"))
      [GET_ping; GET_root; POST_invocations {| features := [1]%float |}] = Some (resps, s) ∧
    s = {| model := None;
           trace := [joblib_load "/opt/ml/model/model.joblib";
                     print ("Warning: Could not load model: " ++ str (Exception "No such file"));
                     print "Using dummy model for testing"] |} ∧
    health_check s = (Raise (HTTPException 503 "Model not loaded"), s) ∧
    (∀ request, predict request s = (Raise (HTTPException 503 "Model not loaded"), s)).
Proof.
  apply (X3_failed_load_means_503_for_ever (L := Z) (λ _, inl (Exception "No such file"))
           (Exception "No such file")).
  reflexivity.
Defined.

Lemma posted_cons (r : request) (reqs : list request) :
  posted (r :: reqs) = (posted [r] ++ posted reqs)%list.
Proof. unfold posted. simpl. rewrite app_nil_r. reflexivity. Qed.

Lemma proba_calls_app (a b : list event) :
  proba_calls (a ++ b) = (proba_calls a ++ proba_calls b)%list.
Proof. apply flat_map_app. Qed.

(** The calls of the model one request adds on a loaded holder. *)
Lemma route_calls {L : Type} `{Int L} (r : request) (m : Classifier L) (tr : list event) :
  ∃ evs, snd (route r {| model := Some m; trace := tr |}) =
           {| model := Some m; trace := tr ++ evs |} ∧
         predict_calls evs = map row (posted [r]) ∧
         (length (proba_calls evs) ≤ length (posted [r]))%nat.
Proof.
  destruct r as [|[x]|].
  - exists []. rewrite app_nil_r. repeat split. simpl. lia.
  - destruct (predict_trace_exact m tr x) as (evs & Hp & Hevs).
    exists (model_predict (row x) :: evs). simpl. unfold mbind, M_bind.
    destruct (predict {| features := x |} {| model := Some m; trace := tr |}) as [[r|e] s1];
      simpl in Hp; subst s1; (split; [reflexivity|]);
      destruct Hevs as [-> | ->]; simpl; split; (reflexivity || lia).
  - exists []. rewrite app_nil_r. repeat split. simpl. lia.
Qed.

(** X4. On a loaded holder the model's [predict] is called once for each
    POST /invocations, in the order of the requests, on the row built from
    that request's features, and for nothing else; [predict_proba] is called
    at most as often. On an empty holder serving changes nothing at all. *)
Theorem X4_one_predict_call_per_post {L : Type} `{Int L} (reqs : list request) (s : process L) :
  (∀ m, model s = Some m →
     predict_calls (trace (snd (serve reqs s))) =
       (predict_calls (trace s) ++ map row (posted reqs))%list ∧
     (length (proba_calls (trace (snd (serve reqs s)))) ≤
        length (proba_calls (trace s)) + length (posted reqs))%nat) ∧
  (model s = None → snd (serve reqs s) = s).
Proof.
  split; [|apply serve_empty_holder].
  intros m. revert s. induction reqs as [|r reqs IH]; intros s Hs.
  - simpl. rewrite app_nil_r. split; [reflexivity|lia].
  - destruct s as [m0 tr]. simpl in Hs. subst m0.
    destruct (route_calls r m tr) as (evs & Hs1 & Hcalls & Hproba).
    destruct (IH {| model := Some m; trace := tr ++ evs |} eq_refl) as [IH1 IH2].
    cbn [serve].
    destruct (route r _) as [o s1]. cbn [snd] in Hs1. subst s1.
    destruct (serve reqs _) as [resps s2]. cbn [snd trace] in *.
    rewrite posted_cons, map_app, length_app.
    rewrite predict_calls_app in IH1. rewrite proba_calls_app, length_app in IH2.
    split.
    + rewrite IH1, Hcalls, <- app_assoc. reflexivity.
    + lia.
Qed.

(** X5. Within one POST /invocations on a loaded holder, [predict_proba]
    is called exactly when [predict] returned, with a first label that
    [int] converts; otherwise the handler stops after the one call of
    [predict]. *)
Theorem X5_predict_proba_needs_a_label {L : Type} `{Int L}
    (m : Classifier L) (tr : list event) (x : list float) :
  ((∃ ys y z, sklearn.predict m (row x) = inr ys ∧ ys !! 0%nat = Some y ∧ int y = inr z) →
   trace (snd (predict {| features := x |} {| model := Some m; trace := tr |})) =
     (tr ++ [model_predict (row x); model_predict_proba (row x)])%list) ∧
  (¬ (∃ ys y z, sklearn.predict m (row x) = inr ys ∧ ys !! 0%nat = Some y ∧ int y = inr z) →
   trace (snd (predict {| features := x |} {| model := Some m; trace := tr |})) =
     (tr ++ [model_predict (row x)])%list).
Proof.
  rewrite predict_loaded. simpl. unfold bad_input. split.
  - intros (ys & y & z & -> & Hy & Hz). rewrite (getitem0_Some _ _ Hy), Hz.
    destruct (predict_proba m (row x)) as [e|P]; [|destruct (getitem0 P)];
      simpl; rewrite <- app_assoc; reflexivity.
  - intros Hno.
    destruct (sklearn.predict m (row x)) as [e|ys]; [reflexivity|].
    destruct (getitem0 ys) as [e|y] eqn:Hy; [reflexivity|].
    destruct (int y) as [e|z] eqn:Hz; [reflexivity|].
    exfalso. apply Hno. exists ys, y, z. auto using getitem0_inr.
Qed.

(** X6. When the model returns a label that [int] cannot convert, the
    request is answered with the 400 error carrying the message of the
    conversion, although the model accepted the input, and [predict_proba]
    is not called. *)
Theorem X6_unconvertible_label_is_bad_input {L : Type} `{Int L}
    (m : Classifier L) (tr : list event) (x : list float) (ys : list L) (y : L) (e : exn) :
  sklearn.predict m (row x) = inr ys →
  ys !! 0%nat = Some y →
  int y = inl e →
  predict {| features := x |} {| model := Some m; trace := tr |} =
    (Raise (HTTPException 400 ("Prediction error: " ++ str e)),
     {| model := Some m; trace := tr ++ [model_predict (row x)] |}).
Proof.
  intros Hys Hy He. rewrite predict_loaded. simpl.
  rewrite Hys, (getitem0_Some _ _ Hy), He. reflexivity.
Qed.

Lemma X6_witness :
  predict {| features := [1]%float |} {| model := Some nan_label_classifier; trace := [] |} =
    (Raise (HTTPException 400 "Prediction error: cannot convert float NaN to integer"),
     {| model := Some nan_label_classifier; trace := [model_predict (row [1]%float)] |}).
Proof.
  apply (X6_unconvertible_label_is_bad_input nan_label_classifier [] [1]%float [nan] nan
           (Exception "cannot convert float NaN to integer"));
    reflexivity.
Defined.

(** X7. When [predict], or after it [predict_proba], returns an array
    without entries, taking entry 0 fails and the request is answered with
    the 400 error of the index. *)
Theorem X7_empty_model_output_is_bad_input {L : Type} `{Int L}
    (m : Classifier L) (tr : list event) (x : list float) :
  sklearn.predict m (row x) = inr [] ∨
  ((∃ ys y z, sklearn.predict m (row x) = inr ys ∧ ys !! 0%nat = Some y ∧ int y = inr z) ∧
   predict_proba m (row x) = inr []) →
  fst (predict {| features := x |} {| model := Some m; trace := tr |}) =
    Raise (HTTPException 400
             "Prediction error: index 0 is out of bounds for axis 0 with size 0").
Proof.
  rewrite predict_loaded. simpl.
  intros [-> | [(ys & y & z & -> & Hy & Hz) ->]]; [reflexivity|].
  rewrite (getitem0_Some _ _ Hy), Hz. reflexivity.
Qed.

Lemma X7_witness :
  fst (predict {| features := [1]%float |} {| model := Some silent_classifier; trace := [] |}) =
    Raise (HTTPException 400
             "Prediction error: index 0 is out of bounds for axis 0 with size 0").
Proof.
  apply (X7_empty_model_output_is_bad_input silent_classifier [] [1]%float).
  left. reflexivity.
Defined.

End server_properties.

(** ** More properties of the training script *)

Module train_run_properties.
Import python train_script spec train_spec train_properties.

(** *** Running the script's monad forwards, however it ends *)

Lemma bind_run {S A B : Type} (c : M S A) (f : A → M S B) (s s' : S) (o : outcome B) :
  (c ≫= f) s = (o, s') →
  (∃ e, c s = (Raise e, s') ∧ o = Raise e) ∨
  (∃ a s1, c s = (Return a, s1) ∧ f a s1 = (o, s')).
Proof.
  unfold mbind, M_bind. destruct (c s) as [[a|e] s1].
  - right. eauto.
  - intros [= <- <-]. left. eauto.
Qed.

Lemma mret_run {S A : Type} (a : A) (s s' : S) (o : outcome A) :
  (mret a : M S A) s = (o, s') → o = Return a ∧ s' = s.
Proof. unfold mret, M_ret. intros [= <- <-]. split; reflexivity. Qed.

Lemma call_run {S A : Type} (r : result A) (s s' : S) (o : outcome A) :
  call r s = (o, s') → s' = s.
Proof. unfold call. destruct r; intros [= _ <-]; reflexivity. Qed.

Lemma print_run (line : string) (w w' : world) (o : outcome unit) :
  print line w = (o, w') →
  o = Return () ∧ files w' = files w ∧ writable w' = writable w ∧
  stdout w' = (stdout w ++ [line])%list.
Proof. unfold print. intros [= <- <-]. repeat split. Qed.

Lemma read_file_run (path : string) (w w' : world) (o : outcome string) :
  read_file path w = (o, w') → w' = w.
Proof. unfold read_file. destruct (files w !! path); intros [= _ <-]; reflexivity. Qed.

Lemma write_file_run (path text : string) (w w' : world) (o : outcome unit) :
  write_file path text w = (o, w') →
  (writable w path = true ∧ o = Return () ∧ files w' = <[path := text]> (files w) ∧
   writable w' = writable w ∧ stdout w' = stdout w) ∨
  (writable w path = false ∧ (∃ e, o = Raise e) ∧ w' = w).
Proof.
  unfold write_file. destruct (writable w path); intros [= <- <-].
  - left. repeat split.
  - right. repeat split. eauto.
Qed.

Lemma only_printed_refl (w : world) : only_printed w w.
Proof. repeat split. exists []. symmetry. apply app_nil_r. Qed.

Lemma only_printed_trans (w1 w2 w3 : world) :
  only_printed w1 w2 → only_printed w2 w3 → only_printed w1 w3.
Proof.
  intros (Hf1 & Hw1 & l1 & Hl1) (Hf2 & Hw2 & l2 & Hl2).
  repeat split; [congruence..|].
  exists (l1 ++ l2)%list. rewrite Hl2, Hl1, app_assoc. reflexivity.
Qed.

Lemma call_keeps {A : Type} (r : result A) (w w' : world) (o : outcome A) :
  call r w = (o, w') → only_printed w w'.
Proof. intros ->%call_run. apply only_printed_refl. Qed.

Lemma read_file_keeps (path : string) (w w' : world) (o : outcome string) :
  read_file path w = (o, w') → only_printed w w'.
Proof. intros ->%read_file_run. apply only_printed_refl. Qed.

Lemma print_keeps (line : string) (w w' : world) (o : outcome unit) :
  print line w = (o, w') → only_printed w w'.
Proof. intros (_ & Hf & Hw & Hl)%print_run. repeat split; eauto. Qed.

Lemma print_returns (line : string) (w w' : world) (e : exn) :
  print line w ≠ (Raise e, w').
Proof. intros (Ho & _)%print_run. discriminate. Qed.

Ltac chain_printed :=
  repeat (eapply only_printed_trans; [eassumption|]); apply only_printed_refl.

(** One step that only prints, if it does anything: record that. *)
Ltac keep_step Hc :=
  first [ apply print_keeps in Hc
        | apply call_keeps in Hc
        | apply read_file_keeps in Hc ].

(** Walk down the binds of [H] as long as the steps only print; [fin]
    closes the goal where a step raised. *)
Ltac walk H fin :=
  lazymatch type of H with
  | mbind _ (write_file _ _) _ = _ => idtac
  | mbind _ (print _) _ = _ =>
      let Hc := fresh "Hc" in
      apply bind_run in H as [(? & Hc & ->) | (? & ? & Hc & H)];
      [ exfalso; exact (print_returns _ _ _ _ Hc) | keep_step Hc; walk H fin ]
  | mbind _ _ _ = _ =>
      let Hc := fresh "Hc" in
      apply bind_run in H as [(? & Hc & ->) | (? & ? & Hc & H)];
      [ keep_step Hc; fin | keep_step Hc; walk H fin ]
  | _ => idtac
  end.

(** [load_data] only reads and prints. *)
Lemma load_data_keeps `{Libraries} (train_dir test_dir : string) (w w' : world)
    (o : outcome (DataFrame * DataFrame)) :
  load_data train_dir test_dir w = (o, w') → only_printed w w'.
Proof.
  unfold load_data. intros Hrun. walk Hrun chain_printed.
  apply mret_run in Hrun as [_ ->]. chain_printed.
Qed.

Ltac keep_step Hc ::=
  first [ apply print_keeps in Hc
        | apply call_keeps in Hc
        | apply read_file_keeps in Hc
        | apply load_data_keeps in Hc ].

(** [train_model], however it ends: it raised having only printed, or it
    returned after writing the one metrics file. *)
Lemma train_model_run `{Libraries} (args : Namespace) (w w' : world)
    (o : outcome RandomForestClassifier) :
  train_model args w = (o, w') →
  (only_printed w w' ∧ ∃ e, o = Raise e) ∨
  (∃ model text lines, o = Return model ∧
     writable w (os_path_join (output_data_dir args) "metrics.json") = true ∧
     files w' = <[os_path_join (output_data_dir args) "metrics.json" := text]> (files w) ∧
     writable w' = writable w ∧ stdout w' = (stdout w ++ lines)%list).
Proof.
  unfold train_model. intros Hrun.
  walk Hrun ltac:(left; split; [chain_printed|eauto]).
  match goal with
  | Hl : (let '(_, _) := ?d in _) _ = _ |- _ => destruct d as [train_df test_df]
  end.
  walk Hrun ltac:(left; split; [chain_printed|eauto]).
  match type of Hrun with
  | mbind _ _ ?wk = _ => assert (Hdisk : only_printed w wk) by chain_printed
  end.
  apply bind_run in Hrun as [(e & Hwrite & ->) | ([] & w2 & Hwrite & Hrun)];
    apply write_file_run in Hwrite as [(Hw & Ho & Hf & Hwr & Hout) | (Hw & [e' Ho] & ->)];
    try discriminate.
  - left. split; [exact Hdisk|eauto].
  - apply mret_run in Hrun as [-> ->].
    right. destruct Hdisk as (Hd1 & Hd2 & lines & Hd3). eexists _, _, lines.
    split; [reflexivity|]. rewrite <- Hd2, <- Hd1.
    split; [exact Hw|split; [exact Hf|split; [exact Hwr|congruence]]].
Qed.

(** [save_model], however it ends: the write was refused and nothing
    happened, or the dump was written and the line printed. *)
Lemma save_model_run `{Libraries} (model : RandomForestClassifier) (model_dir : string)
    (w w' : world) (o : outcome unit) :
  save_model model model_dir w = (o, w') →
  (w' = w ∧ (∃ e, o = Raise e) ∧ writable w (os_path_join model_dir "model.joblib") = false) ∨
  (o = Return () ∧ writable w (os_path_join model_dir "model.joblib") = true ∧
   files w' = <[os_path_join model_dir "model.joblib" := joblib_dumps model]> (files w) ∧
   writable w' = writable w ∧
   stdout w' = (stdout w ++ [("Model saved to " ++ os_path_join model_dir "model.joblib")%string])%list).
Proof.
  unfold save_model. intros Hrun.
  apply bind_run in Hrun as [(e & Hwrite & ->) | ([] & w1 & Hwrite & Hrun)];
    apply write_file_run in Hwrite as [(Hw & Ho & Hf & Hwr & Hout) | (Hw & [e' Ho] & ->)];
    try discriminate.
  - left. repeat split; eauto.
  - apply print_run in Hrun as (-> & Hf' & Hwr' & Hout').
    right. repeat split; congruence.
Qed.

Ltac print_exact H :=
  let Hp := fresh "Hp" in
  let Hf := fresh "Hpf" in
  let Hw := fresh "Hpw" in
  let Hl := fresh "Hpl" in
  apply bind_run in H as [(? & Hp & ->) | ([] & ? & Hp & H)];
  [ exfalso; exact (print_returns _ _ _ _ Hp)
  | apply print_run in Hp as (_ & Hf & Hw & Hl) ].

(** The three ways a run of the script can end. *)
Lemma main_run `{Libraries} (args : Namespace) (w w' : world) (o : outcome unit) :
  main args w = (o, w') →
  ((∃ e, o = Raise e) ∧ files w' = files w ∧
   ∃ lines, stdout w' = (stdout w ++ banner args ++ lines)%list) ∨
  ((∃ e, o = Raise e) ∧
   writable w (os_path_join (output_data_dir args) "metrics.json") = true ∧
   writable w (os_path_join (model_dir args) "model.joblib") = false ∧
   ∃ text lines,
     files w' = <[os_path_join (output_data_dir args) "metrics.json" := text]> (files w) ∧
     stdout w' = (stdout w ++ banner args ++ lines)%list) ∨
  (o = Return () ∧
   writable w (os_path_join (output_data_dir args) "metrics.json") = true ∧
   writable w (os_path_join (model_dir args) "model.joblib") = true ∧
   ∃ text model lines,
     files w' = <[os_path_join (model_dir args) "model.joblib" := joblib_dumps model]>
                  (<[os_path_join (output_data_dir args) "metrics.json" := text]> (files w)) ∧
     stdout w' = (stdout w ++ banner args ++ lines ++
                  [("Model saved to " ++ os_path_join (model_dir args) "model.joblib")%string;
                   (newline ++ str_mul "=" 80)%string;
                   "Training complete!";
                   str_mul "=" 80])%list).
Proof.
  unfold main. intros Hrun.
  do 5 print_exact Hrun.
  match type of Hrun with
  | mbind _ _ ?wk = _ =>
      assert (Hbanner : files wk = files w ∧ writable wk = writable w ∧
                        stdout wk = (stdout w ++ banner args)%list)
  end.
  { repeat split; [congruence..|].
    unfold banner. repeat match goal with Hl : stdout _ = _ |- _ => rewrite Hl; clear Hl end.
    rewrite <- !app_assoc. reflexivity. }
  destruct Hbanner as (Hbf & Hbw & Hbl).
  apply bind_run in Hrun as [(e & Ht & ->) | (model & w5 & Ht & Hrun)];
    apply train_model_run in Ht
      as [[(Hkf & Hkw & lines & Hkl) [e' He']]
         | (model' & text & lines & Ho & Hw & Hf & Hwr & Hout)];
    try discriminate.
  { left. split; [eauto|]. split; [congruence|].
    exists lines. rewrite Hkl, Hbl, <- app_assoc. reflexivity. }
  apply bind_run in Hrun as [(e & Hs & ->) | ([] & w6 & Hs & Hrun)];
    apply save_model_run in Hs
      as [(-> & [e' He'] & Hjw) | (Ho' & Hjw & Hjf & Hjwr & Hjl)];
    try discriminate.
  { right; left. split; [eauto|]. rewrite <- Hbw. split; [exact Hw|].
    split; [congruence|]. exists text, lines. split; [congruence|].
    rewrite Hout, Hbl, <- app_assoc. reflexivity. }
  do 2 print_exact Hrun.
  apply print_run in Hrun as (-> & Hf8 & Hw8 & Hl8).
  right; right. split; [reflexivity|]. rewrite <- Hbw. split; [exact Hw|].
  split; [congruence|]. injection Ho as <-. exists text, model, lines. split; [congruence|].
  rewrite Hl8.
  repeat match goal with Hl : stdout _ = _ |- _ => rewrite Hl; clear Hl end.
  rewrite <- !app_assoc. reflexivity.
Qed.

(** *** What a run of the script does to the files and the log *)

(** X8. When the system refuses the write of the metrics file, the run
    ends in an exception and no file is written: the fitted model is not
    saved either, because the metrics are written first. *)
Theorem X8_refused_metrics_lose_the_model `{Libraries} (args : Namespace) (w w' : world)
    (o : outcome unit) :
  writable w (os_path_join (output_data_dir args) "metrics.json") = false →
  main args w = (o, w') →
  (∃ e, o = Raise e) ∧ files w' = files w.
Proof.
  intros Hw Hrun.
  apply main_run in Hrun as [(He & Hf & _) | [(_ & Hw' & _) | (_ & Hw' & _)]];
    [split; assumption|congruence..].
Qed.

Lemma X8_witness :
  (∃ e, fst (@main toy_libraries (parse_args ∅) read_only_world) = Raise e) ∧
  files (snd (@main toy_libraries (parse_args ∅) read_only_world)) = files read_only_world.
Proof.
  exact (@X8_refused_metrics_lose_the_model toy_libraries (parse_args ∅) read_only_world _ _
           eq_refl (surjective_pairing _)).
Defined.



(** X10. However a run ends, it creates or changes no file but
    [metrics.json] and [model.joblib] at their two paths (the data files
    keep their text); and if [model.joblib] is not what it was, the run
    returned and [metrics.json] is there. *)
Theorem X10_only_the_two_outputs_change `{Libraries} (args : Namespace) (w w' : world)
    (o : outcome unit) :
  main args w = (o, w') →
  (∀ path, path ≠ os_path_join (output_data_dir args) "metrics.json" →
           path ≠ os_path_join (model_dir args) "model.joblib" →
           files w' !! path = files w !! path) ∧
  (files w' !! os_path_join (model_dir args) "model.joblib" ≠
     files w !! os_path_join (model_dir args) "model.joblib" →
   o = Return () ∧
   ∃ text, files w' !! os_path_join (output_data_dir args) "metrics.json" = Some text).
Proof.
  intros Hrun.
  pose proof (metrics_path_is_not_model_path (output_data_dir args) (model_dir args)) as Hne.
  apply main_run in Hrun
    as [(_ & Hf & _) | [(_ & _ & _ & text & lines & Hf & _)
                       | (Ho & _ & _ & text & model & lines & Hf & _)]];
    rewrite Hf; split.
  - reflexivity.
  - intros []. reflexivity.
  - intros path Hp _. rewrite lookup_insert_ne by (apply not_eq_sym, Hp). reflexivity.
  - rewrite lookup_insert_ne by exact Hne. intros []. reflexivity.
  - intros path Hp Hj. rewrite !lookup_insert_ne by (apply not_eq_sym; assumption). reflexivity.
  - intros _. split; [exact Ho|]. exists text.
    rewrite lookup_insert_ne by (apply not_eq_sym, Hne). apply lookup_insert_eq.
Qed.

Lemma X10_witness :
  (∀ path, path ≠ "/opt/ml/output/metrics.json" → path ≠ "/opt/ml/model/model.joblib" →
     files (snd (@main toy_libraries (parse_args ∅) toy_world)) !! path = files toy_world !! path) ∧
  (files (snd (@main toy_libraries (parse_args ∅) toy_world)) !! "/opt/ml/model/model.joblib" ≠
     files toy_world !! "/opt/ml/model/model.joblib" →
   fst (@main toy_libraries (parse_args ∅) toy_world) = Return () ∧
   ∃ text, files (snd (@main toy_libraries (parse_args ∅) toy_world))
             !! "/opt/ml/output/metrics.json" = Some text).
Proof.
  exact (@X10_only_the_two_outputs_change toy_libraries (parse_args ∅) toy_world _ _
           (surjective_pairing _)).
Defined.

(** X11. A run that returns has printed, after what was there, the banner
    and at the end "Model saved to" with the path, the closing bar,
    "Training complete!" and the bar; the path printed is the path the dump
    of the model is at. *)
Theorem X11_log_of_a_successful_run `{Libraries} (args : Namespace) (w w' : world) :
  main args w = (Return (), w') →
  ∃ lines model,
    stdout w' = (stdout w ++ banner args ++ lines ++
                 [("Model saved to " ++ os_path_join (model_dir args) "model.joblib")%string;
                  (newline ++ str_mul "=" 80)%string;
                  "Training complete!";
                  str_mul "=" 80])%list ∧
    files w' !! os_path_join (model_dir args) "model.joblib" = Some (joblib_dumps model).
Proof.
  intros Hrun.
  apply main_run in Hrun
    as [([e He] & _) | [([e He] & _) | (_ & _ & _ & text & model & lines & Hf & Hl)]];
    try discriminate.
  exists lines, model. split; [exact Hl|]. rewrite Hf. apply lookup_insert_eq.
Qed.

Lemma X11_witness :
  ∃ lines model,
    stdout (snd (@main toy_libraries (parse_args ∅) toy_world)) =
      (stdout toy_world ++ banner (parse_args ∅) ++ lines ++
       ["Model saved to /opt/ml/model/model.joblib";
        (newline ++ str_mul "=" 80)%string;
        "Training complete!";
        str_mul "=" 80])%list ∧
    files (snd (@main toy_libraries (parse_args ∅) toy_world)) !! "/opt/ml/model/model.joblib" =
      Some (@joblib_dumps toy_libraries model).
Proof.
  exact (@X11_log_of_a_successful_run toy_libraries (parse_args ∅) toy_world _
           toy_run_returns).
Defined.

(** X12. Trained with [SM_MODEL_DIR] unset, a run that returns leaves the
    dump of the model at [/opt/ml/model/model.joblib], which is the path
    the inference server gives to [joblib.load] at startup. *)
Theorem X12_default_model_path_is_the_servers `{Libraries} (environ : gmap string string)
    (w w' : world) :
  environ !! "SM_MODEL_DIR" = None →
  main (parse_args environ) w = (Return (), w') →
  (∃ model, files w' !! "/opt/ml/model/model.joblib" = Some (joblib_dumps model)) ∧
  (∀ (L : Type) (load : string → result (sklearn.Classifier L)),
     ∃ evs, app.trace (snd (app.load_model load app.initial)) =
              app.joblib_load "/opt/ml/model/model.joblib" :: evs).
Proof.
  intros Henv Hrun. split.
  - apply main_run in Hrun
      as [([e He] & _) | [([e He] & _) | (_ & _ & _ & text & model & lines & Hf & _)]];
      try discriminate.
    exists model. rewrite Hf.
    assert (Hpath : os_path_join (model_dir (parse_args environ)) "model.joblib" =
                    "/opt/ml/model/model.joblib")
      by (unfold parse_args; simpl; rewrite Henv; reflexivity).
    rewrite Hpath. apply lookup_insert_eq.
  - intros L load. rewrite app_properties.load_model_initial. unfold model_path.
    destruct (load "/opt/ml/model/model.joblib"); eexists; reflexivity.
Qed.

Lemma X12_witness :
  (∃ model, files (snd (@main toy_libraries (parse_args ∅) toy_world))
              !! "/opt/ml/model/model.joblib" = Some (@joblib_dumps toy_libraries model)) ∧
  (∀ (L : Type) (load : string → result (sklearn.Classifier L)),
     ∃ evs, app.trace (snd (app.load_model load app.initial)) =
              app.joblib_load "/opt/ml/model/model.joblib" :: evs).
Proof.
  exact (@X12_default_model_path_is_the_servers toy_libraries ∅ toy_world _
           eq_refl toy_run_returns).
Defined.

End train_run_properties.

(** ** Properties of the conversation with history *)

Module bedrock_properties.
Import python pyobj bedrock_example chat_spec.

(** The case of a response that does not have the answer where it is
    read. *)
Ltac raised Hrun e response rew :=
  injection Hrun as <- <-; split; [reflexivity|];
  left; exists e; split; [reflexivity|]; split; [reflexivity|];
  right; exists response; split; [reflexivity|]; rew; reflexivity.

(** One call, however it ends: the service is asked once, with the list
    that already holds the user's turn; then the call raised and the list
    is left so, or it returned the answer read from the response and the
    list holds the answer too. *)
Lemma converse_with_history_run (service : string → list value → value → result value)
    (user_message model_id : string) (s s' : state) (o : outcome (value * list value)) :
  converse_with_history service user_message model_id s = (o, s') →
  sent s' = (sent s ++ [(model_id, asked s user_message, history_config)])%list ∧
  ((∃ e, o = Raise e ∧
         messages s' = asked s user_message ∧
         (service model_id (asked s user_message) history_config = inl e ∨
          ∃ response,
            service model_id (asked s user_message) history_config = inr response ∧
            answer_text response = inl e)) ∨
   (∃ response v,
      service model_id (asked s user_message) history_config = inr response ∧
      answer_text response = inr v ∧
      o = Return (v, messages s') ∧
      messages s' = (asked s user_message ++ [turn "assistant" v])%list)).
Proof.
  intros Hrun.
  unfold converse_with_history, mbind, M_bind, append, converse, get_messages, call, raise,
    mret, M_ret in Hrun. simpl in Hrun. fold history_config in Hrun. fold (asked s user_message) in Hrun.
  destruct (service model_id (asked s user_message) history_config) as [e|response] eqn:Hs.
  { injection Hrun as <- <-. split; [reflexivity|]. left. exists e. auto. }
  simpl in Hrun. unfold answer_text.
  destruct (getitem_key response "output") as [e|output] eqn:H1; simpl in Hrun;
    [raised Hrun e response ltac:(rewrite H1)|].
  destruct (getitem_key output "message") as [e|message] eqn:H2; simpl in Hrun;
    [raised Hrun e response ltac:(rewrite H1, H2)|].
  destruct (getitem_key message "content") as [e|content] eqn:H3; simpl in Hrun;
    [raised Hrun e response ltac:(rewrite H1, H2, H3)|].
  destruct (getitem_0 content) as [e|block] eqn:H4; simpl in Hrun;
    [raised Hrun e response ltac:(rewrite H1, H2, H3, H4)|].
  destruct (getitem_key block "text") as [e|v] eqn:H5; simpl in Hrun;
    [raised Hrun e response ltac:(rewrite H1, H2, H3, H4, H5)|].
  injection Hrun as <- <-. split; [reflexivity|]. right.
  exists response, v. rewrite H1, H2, H3, H4. repeat split. exact H5.
Qed.

(** X13. A call that raises, because the service raised or because the
    response does not have the answer where it is read, has already
    appended the user's turn to the caller's list and leaves it there; the
    service was asked once, with that longer list. *)
Theorem X13_failed_call_keeps_the_users_turn
    (service : string → list value → value → result value)
    (user_message model_id : string) (s s' : state) (e : exn) :
  converse_with_history service user_message model_id s = (Raise e, s') →
  messages s' = (messages s ++ [turn "user" (VStr user_message)])%list ∧
  sent s' = (sent s ++ [(model_id, (messages s ++ [turn "user" (VStr user_message)])%list,
                         history_config)])%list.
Proof.
  intros Hrun. apply converse_with_history_run in Hrun as [Hsent Hcases].
  split; [|exact Hsent].
  destruct Hcases as [(e' & _ & Hm & _) | (response & v & _ & _ & Ho & _)];
    [exact Hm|discriminate].
Qed.

Lemma X13_witness :
  messages (snd (converse_with_history throttled_service "What is AWS Lambda?" "m" fresh)) =
    [turn "user" (VStr "What is AWS Lambda?")] ∧
  sent (snd (converse_with_history throttled_service "What is AWS Lambda?" "m" fresh)) =
    [("m", [turn "user" (VStr "What is AWS Lambda?")], history_config)].
Proof.
  exact (X13_failed_call_keeps_the_users_turn throttled_service "What is AWS Lambda?" "m"
           fresh _ (Exception "ThrottlingException") eq_refl).
Defined.

(** X14. A call that returns gives the text read from the response of
    the service at [output], [message], [content], entry 0, [text]; the
    list holds what it held, then the user's turn, then the assistant's
    turn with that text; and the list returned is that list. *)
Theorem X14_returned_call_appends_both_turns
    (service : string → list value → value → result value)
    (user_message model_id : string) (s s' : state) (v : value) (returned : list value) :
  converse_with_history service user_message model_id s = (Return (v, returned), s') →
  returned = messages s' ∧
  messages s' =
    (messages s ++ [turn "user" (VStr user_message); turn "assistant" v])%list ∧
  ∃ response,
    service model_id (messages s ++ [turn "user" (VStr user_message)])%list history_config
      = inr response ∧
    answer_text response = inr v.
Proof.
  intros Hrun. apply converse_with_history_run in Hrun as [_ Hcases].
  destruct Hcases as [(e' & Ho & _) | (response & v' & Hs & Hv & Ho & Hm)]; [discriminate|].
  injection Ho as -> ->. split; [reflexivity|]. split.
  - rewrite Hm. unfold asked. rewrite <- app_assoc. reflexivity.
  - exists response. split; assumption.
Qed.

Lemma X14_witness :
  [turn "user" (VStr "hi"); turn "assistant" (VStr "ok")] =
    messages (snd (converse_with_history ok_service "hi" "m" fresh)) ∧
  messages (snd (converse_with_history ok_service "hi" "m" fresh)) =
    [turn "user" (VStr "hi"); turn "assistant" (VStr "ok")] ∧
  ∃ response,
    ok_service "m" [turn "user" (VStr "hi")] history_config = inr response ∧
    answer_text response = inr (VStr "ok").
Proof.
  exact (X14_returned_call_appends_both_turns ok_service "hi" "m" fresh _ (VStr "ok") _ eq_refl).
Defined.

Lemma is_role_turn (r r' : string) (v : value) :
  is_role r (turn r' v) = bool_decide (r' = r).
Proof. unfold is_role, turn. rewrite lookup_insert_eq. reflexivity. Qed.

(** A dialogue followed by more messages is a dialogue exactly when the
    rest is one. *)
Lemma dialogue_app (a b : list value) :
  dialogue a = true → dialogue (a ++ b) = dialogue b.
Proof.
  remember (length a) as n eqn:Hn.
  assert (Hle : (length a ≤ n)%nat) by lia. clear Hn.
  revert a Hle. induction n as [|n IH]; intros a Hle Hd.
  - destruct a; [reflexivity|simpl in Hle; lia].
  - destruct a as [|u [|x rest]]; [reflexivity|discriminate|].
    simpl in Hd, Hle |- *.
    apply andb_prop in Hd as [Hux Hrest]. rewrite Hux. simpl.
    apply IH; [lia|exact Hrest].
Qed.

(** X15. On a list that is a dialogue, a call that returns leaves a
    dialogue, two messages longer. *)
Theorem X15_returned_call_keeps_a_dialogue
    (service : string → list value → value → result value)
    (user_message model_id : string) (s s' : state) (v : value) (returned : list value) :
  dialogue (messages s) = true →
  converse_with_history service user_message model_id s = (Return (v, returned), s') →
  dialogue (messages s') = true ∧ length (messages s') = (length (messages s) + 2)%nat.
Proof.
  intros Hd Hrun. apply converse_with_history_run in Hrun as [_ Hcases].
  destruct Hcases as [(e' & Ho & _) | (response & v' & _ & _ & _ & Hm)]; [discriminate|].
  rewrite Hm. unfold asked. rewrite <- app_assoc. split.
  - rewrite dialogue_app by exact Hd. cbn [dialogue app]. rewrite !is_role_turn. reflexivity.
  - rewrite length_app. reflexivity.
Qed.

Lemma X15_witness :
  dialogue (messages (snd (converse_with_history ok_service "hi" "m" fresh))) = true ∧
  length (messages (snd (converse_with_history ok_service "hi" "m" fresh))) = 2%nat.
Proof.
  exact (X15_returned_call_keeps_a_dialogue ok_service "hi" "m" fresh _ (VStr "ok") _
           eq_refl eq_refl).
Defined.

(** X16. After a call has raised on a list that was a dialogue, the list
    is not a dialogue, and no later calls on it, however many and however
    they end, make it one again: the unanswered user's turn is followed by
    nothing or by another user's turn. *)
Theorem X16_failed_call_breaks_the_dialogue_for_good
    (service : string → list value → value → result value)
    (user_message model_id : string) (s s1 s2 : state) (e : exn) :
  dialogue (messages s) = true →
  converse_with_history service user_message model_id s = (Raise e, s1) →
  rtc call_step s1 s2 →
  dialogue (messages s2) = false.
Proof.
  intros Hd Hrun Hlater.
  apply converse_with_history_run in Hrun as [_ Hcases].
  destruct Hcases as [(e' & _ & Hm & _) | (response & v & _ & _ & Ho & _)]; [|discriminate].
  assert (Hinv : ∃ rest, messages s2 =
                   (messages s ++ turn "user" (VStr user_message) :: rest)%list ∧
                 (rest = [] ∨ ∃ t rest', rest = turn "user" (VStr t) :: rest')).
  { revert s2 Hlater. apply rtc_ind_r.
    - exists []. split; [exact Hm|left; reflexivity].
    - intros y z _ (service' & t & id & o & Hstep) (rest & Hy & Hrest).
      apply converse_with_history_run in Hstep as [_ Hcases].
      assert (Hz : ∃ more, messages z = (messages y ++ turn "user" (VStr t) :: more)%list).
      { destruct Hcases as [(e2 & _ & Hz & _) | (response & v & _ & _ & _ & Hz)];
          rewrite Hz; unfold asked; [exists []|exists [turn "assistant" v]];
          rewrite <- ?app_assoc; reflexivity. }
      destruct Hz as (more & Hz). rewrite Hz, Hy, <- app_assoc. simpl.
      eexists. split; [reflexivity|]. right.
      destruct Hrest as [-> | (t0 & rest' & ->)]; simpl; eauto. }
  destruct Hinv as (rest & -> & Hrest).
  rewrite dialogue_app by exact Hd.
  destruct Hrest as [-> | (t & rest' & ->)]; [reflexivity|].
  cbn [dialogue]. rewrite !is_role_turn. reflexivity.
Qed.

Lemma X16_witness :
  dialogue (messages (snd (converse_with_history ok_service "again" "m"
              (snd (converse_with_history throttled_service "hi" "m" fresh))))) = false.
Proof.
  refine (X16_failed_call_breaks_the_dialogue_for_good throttled_service "hi" "m" fresh _ _
            (Exception "ThrottlingException") eq_refl eq_refl _).
  apply rtc_once. exists ok_service, "again", "m". eexists. apply surjective_pairing.
Defined.

End bedrock_properties.

(** ** Properties of the endpoint methods *)

Module sagemaker_properties.
Import python pyobj sagemaker_inference.

(** [delete_endpoint] with a client, step by step. *)
Lemma delete_endpoint_run (sm_client : client) (format : value → string)
    (endpoint_name : string) (tr : list event) :
  delete_endpoint (inr sm_client) format endpoint_name tr =
  let t1 := (tr ++ [printed ("Deleting endpoint: " ++ endpoint_name)%string;
                    api "DeleteEndpoint" (VStr endpoint_name)])%list in
  let t2 := (t1 ++ [api "DescribeEndpoint" (VStr endpoint_name)])%list in
  let finish (t : list event) : outcome unit * list event :=
    (Return (), (t ++ [printed ("Endpoint deleted: " ++ endpoint_name)%string])%list) in
  match delete_endpoint_api sm_client endpoint_name with
  | inl e => (Raise e, t1)
  | inr _ =>
      match describe_endpoint_api sm_client endpoint_name with
      | inl _ => finish t2
      | inr description =>
          match getitem_key description "EndpointConfigName" with
          | inl _ => finish t2
          | inr endpoint_config =>
              match delete_endpoint_config_api sm_client endpoint_config with
              | inl _ => finish (t2 ++ [api "DeleteEndpointConfig" endpoint_config])%list
              | inr _ =>
                  finish (t2 ++ [api "DeleteEndpointConfig" endpoint_config;
                                 printed ("Deleted endpoint configuration: "
                                          ++ format endpoint_config)%string])%list
              end
          end
      end
  end.
Proof.
  unfold delete_endpoint, mbind, M_bind, try_except, invoke, print, call, raise, mret, M_ret.
  simpl. rewrite <- !app_assoc. simpl.
  destruct (delete_endpoint_api sm_client endpoint_name) as [e|v]; [reflexivity|].
  destruct (describe_endpoint_api sm_client endpoint_name) as [e|description];
    [simpl; rewrite <- !app_assoc; reflexivity|].
  destruct (getitem_key description "EndpointConfigName") as [e|endpoint_config];
    [simpl; rewrite <- !app_assoc; reflexivity|].
  destruct (delete_endpoint_config_api sm_client endpoint_config) as [e|v'];
    simpl; rewrite <- !app_assoc; reflexivity.
Qed.

(** X17. Once the deletion of the endpoint has returned, the method
    returns and its last line is "Endpoint deleted", whatever the lookup
    and the deletion of the endpoint configuration do: their failures are
    swallowed. The configuration is looked up only after the endpoint's
    deletion. *)
Theorem X17_cleanup_failures_are_swallowed (sm_client : client) (format : value → string)
    (endpoint_name : string) (tr : list event) (v : value) :
  delete_endpoint_api sm_client endpoint_name = inr v →
  ∃ evs,
    delete_endpoint (inr sm_client) format endpoint_name tr =
      (Return (),
       (tr ++ [printed ("Deleting endpoint: " ++ endpoint_name)%string;
               api "DeleteEndpoint" (VStr endpoint_name);
               api "DescribeEndpoint" (VStr endpoint_name)]
           ++ evs ++ [printed ("Endpoint deleted: " ++ endpoint_name)%string])%list).
Proof.
  intros Hdel. rewrite delete_endpoint_run, Hdel. simpl.
  destruct (describe_endpoint_api sm_client endpoint_name) as [e|description];
    [exists []; rewrite <- !app_assoc; reflexivity|].
  destruct (getitem_key description "EndpointConfigName") as [e|endpoint_config];
    [exists []; rewrite <- !app_assoc; reflexivity|].
  destruct (delete_endpoint_config_api sm_client endpoint_config) as [e|v'].
  - exists [api "DeleteEndpointConfig" endpoint_config].
    rewrite <- !app_assoc. reflexivity.
  - exists [api "DeleteEndpointConfig" endpoint_config;
            printed ("Deleted endpoint configuration: " ++ format endpoint_config)%string].
    rewrite <- !app_assoc. reflexivity.
Qed.

Lemma X17_witness :
  ∃ evs,
    delete_endpoint (inr forgetful_client) show "endpoint-1" [] =
      (Return (),
       ([] ++ [printed "Deleting endpoint: endpoint-1";
               api "DeleteEndpoint" (VStr "endpoint-1");
               api "DescribeEndpoint" (VStr "endpoint-1")]
           ++ evs ++ [printed "Endpoint deleted: endpoint-1"])%list).
Proof.
  exact (X17_cleanup_failures_are_swallowed forgetful_client show "endpoint-1" [] (VDict ∅)
           eq_refl).
Defined.

(** X18. When the deletion of the endpoint raises, the method raises the
    same exception and has done nothing after it: the endpoint
    configuration is neither looked up nor deleted. *)
Theorem X18_refused_deletion_is_raised (sm_client : client) (format : value → string)
    (endpoint_name : string) (tr : list event) (e : exn) :
  delete_endpoint_api sm_client endpoint_name = inl e →
  delete_endpoint (inr sm_client) format endpoint_name tr =
    (Raise e,
     (tr ++ [printed ("Deleting endpoint: " ++ endpoint_name)%string;
             api "DeleteEndpoint" (VStr endpoint_name)])%list).
Proof. intros Hdel. rewrite delete_endpoint_run, Hdel. reflexivity. Qed.

Lemma X18_witness :
  delete_endpoint (inr denied_client) show "endpoint-1" [] =
    (Raise (Exception "AccessDeniedException"),
     [printed "Deleting endpoint: endpoint-1"; api "DeleteEndpoint" (VStr "endpoint-1")]).
Proof.
  exact (X18_refused_deletion_is_raised denied_client show "endpoint-1" []
           (Exception "AccessDeniedException") eq_refl).
Defined.

(** X19. The only endpoint configuration the method ever asks to delete
    is the one named by [EndpointConfigName] in what DescribeEndpoint
    returned for this endpoint, after the endpoint's own deletion
    returned. *)
Theorem X19_only_the_described_configuration_is_deleted (sm_client : client)
    (format : value → string) (endpoint_name : string) (c : value) :
  api "DeleteEndpointConfig" c ∈ snd (delete_endpoint (inr sm_client) format endpoint_name []) →
  ∃ v description,
    delete_endpoint_api sm_client endpoint_name = inr v ∧
    describe_endpoint_api sm_client endpoint_name = inr description ∧
    getitem_key description "EndpointConfigName" = inr c.
Proof.
  rewrite delete_endpoint_run. simpl.
  destruct (delete_endpoint_api sm_client endpoint_name) as [e|v]; simpl.
  { rewrite !elem_of_cons, elem_of_nil. intros [|[|[]]]; discriminate. }
  destruct (describe_endpoint_api sm_client endpoint_name) as [e|description]; simpl.
  { rewrite !elem_of_cons, elem_of_nil. intros [|[|[|[|[]]]]]; discriminate. }
  destruct (getitem_key description "EndpointConfigName") as [e|endpoint_config] eqn:Hc; simpl.
  { rewrite !elem_of_cons, elem_of_nil. intros [|[|[|[|[]]]]]; discriminate. }
  intros Hin. exists v, description. repeat split.
  assert (c = endpoint_config) as ->; [|exact Hc].
  destruct (delete_endpoint_config_api sm_client endpoint_config); simpl in Hin;
    rewrite !elem_of_cons, elem_of_nil in Hin;
    repeat (destruct Hin as [Hin|Hin]; [try discriminate|]); try contradiction;
    congruence.
Qed.

Lemma X19_witness :
  ∃ v description,
    delete_endpoint_api working_client "endpoint-1" = inr v ∧
    describe_endpoint_api working_client "endpoint-1" = inr description ∧
    getitem_key description "EndpointConfigName" = inr (VStr "config-1").
Proof.
  apply (X19_only_the_described_configuration_is_deleted working_client show "endpoint-1").
  apply list_elem_of_lookup. exists 3%nat. reflexivity.
Defined.

(** The comprehension over the entries, when it returns and when it
    raises; it calls nothing and prints nothing. *)
Lemma endpoint_names_Return (items names : list value) (tr tr' : list event) :
  endpoint_names items tr = (Return names, tr') →
  tr' = tr ∧ Forall2 (λ ep name, getitem_key ep "EndpointName" = inr name) items names.
Proof.
  revert names. induction items as [|ep items IH]; intros names; simpl.
  - intros [= <- <-]. split; [reflexivity|constructor].
  - unfold mbind, M_bind, call, raise, mret, M_ret.
    destruct (getitem_key ep "EndpointName") as [e|name] eqn:Hname; [discriminate|].
    destruct (endpoint_names items tr) as [[names'|e] tr1] eqn:Hrest; [|discriminate].
    intros [= <- <-]. destruct (IH names' eq_refl) as [-> Hall].
    split; [reflexivity|constructor; assumption].
Qed.

Lemma endpoint_names_Raise (items : list value) (tr : list event) :
  Exists (λ ep, ∃ e, getitem_key ep "EndpointName" = inl e) items →
  ∃ e, endpoint_names items tr = (Raise e, tr).
Proof.
  induction 1 as [ep items [e He] | ep items _ IH]; simpl;
    unfold mbind, M_bind, call, raise, mret, M_ret.
  - rewrite He. eauto.
  - destruct (getitem_key ep "EndpointName") as [e|name]; [eauto|].
    destruct IH as [e ->]. eauto.
Qed.

(** X20. When [list_endpoints] returns, it has asked ListEndpoints once
    and no more, whatever the response holds beside [Endpoints] (a
    [NextToken] is not followed), and the list returned has, entry for
    entry and in order, the [EndpointName] of what [Endpoints] holds. *)
Theorem X20_one_page_of_endpoint_names (sm_client : client) (names : list value)
    (tr tr' : list event) :
  list_endpoints (inr sm_client) tr = (Return names, tr') →
  tr' = (tr ++ [api "ListEndpoints" VNone])%list ∧
  ∃ response endpoints items,
    list_endpoints_api sm_client = inr response ∧
    getitem_key response "Endpoints" = inr endpoints ∧
    iterate endpoints = inr items ∧
    Forall2 (λ ep name, getitem_key ep "EndpointName" = inr name) items names.
Proof.
  unfold list_endpoints, mbind, M_bind, invoke, call, raise, mret, M_ret. simpl.
  destruct (list_endpoints_api sm_client) as [e|response]; [discriminate|].
  destruct (getitem_key response "Endpoints") as [e|endpoints] eqn:He; [discriminate|].
  destruct (iterate endpoints) as [e|items] eqn:Hi; [discriminate|].
  intros [-> Hall]%endpoint_names_Return.
  split; [reflexivity|]. exists response, endpoints, items. repeat split; assumption.
Qed.

Lemma X20_witness :
  snd (list_endpoints (inr working_client) []) = [api "ListEndpoints" VNone] ∧
  ∃ response endpoints items,
    list_endpoints_api working_client = inr response ∧
    getitem_key response "Endpoints" = inr endpoints ∧
    iterate endpoints = inr items ∧
    Forall2 (λ ep name, getitem_key ep "EndpointName" = inr name) items [VStr "endpoint-1"].
Proof.
  exact (X20_one_page_of_endpoint_names working_client [VStr "endpoint-1"] [] _ eq_refl).
Defined.

(** X21. When one entry of [Endpoints] has no [EndpointName], the method
    raises: the names of the other entries are not returned. *)
Theorem X21_one_nameless_entry_loses_the_list (sm_client : client)
    (response endpoints : value) (items : list value) (tr : list event) :
  list_endpoints_api sm_client = inr response →
  getitem_key response "Endpoints" = inr endpoints →
  iterate endpoints = inr items →
  Exists (λ ep, ∃ e, getitem_key ep "EndpointName" = inl e) items →
  ∃ e, list_endpoints (inr sm_client) tr = (Raise e, (tr ++ [api "ListEndpoints" VNone])%list).
Proof.
  intros Hr He Hi Hbad.
  unfold list_endpoints, mbind, M_bind, invoke, call, raise, mret, M_ret. simpl.
  rewrite Hr, He, Hi.
  destruct (endpoint_names_Raise items (tr ++ [api "ListEndpoints" VNone]) Hbad) as [e ->].
  eauto.
Qed.

Lemma X21_witness :
  ∃ e, list_endpoints (inr forgetful_client) [] = (Raise e, ([] ++ [api "ListEndpoints" VNone])%list).
Proof.
  apply (X21_one_nameless_entry_loses_the_list forgetful_client
           (VDict {[ "Endpoints" := VList [VDict ∅] ]}) (VList [VDict ∅]) [VDict ∅] []);
    [reflexivity..|].
  constructor. eexists. reflexivity.
Defined.

End sagemaker_properties.
